(** * Course catalog (app.py): a shallow embedding and its properties

    The application keeps a catalog of courses in one JSON file and serves
    four Flask routes.  This development embeds

    - the two storage functions [load_courses] and [save_courses],
    - the lookup of [course_details] and the validation of [add_course],
    - the two handlers [course_details] and [add_course] themselves,

    together with the part of Python's [json] package they call
    ([json.load], [json.dump] with [indent=4]).

    Conventions.
    - A Python [str] is a sequence of code points ([pystr]).
    - A Python value read from the file is a [pyval]; a [dict] is an
      association list in insertion order with pairwise distinct keys.
    - The state a request can see or change is a [world]: the content of
      the catalog file (or its absence) and the flashed messages.
    - A call that may raise returns a [result]; state changes made before
      a raise are kept, as in Python.
    - Trace spans and log lines are write-only sinks; they are not part of
      [world].  Reading and writing the file are assumed not to fail for
      reasons outside the program (permissions, a missing directory, an
      undecodable byte sequence): the file holds text.
    - Floating point numbers are kept abstract: the type [float], the
      conversion of a literal, the printing of a float and its truth
      value are the operations of the class [FloatOps].
    - The interpreter's limits are not modelled: the recursion limit (a
      very deeply nested document) and the limit on the number of digits
      of an integer literal. *)

From Stdlib Require Import List NArith ZArith String Ascii Bool Lia.
From Stdlib Require Import DecimalString.
Import ListNotations.

Set Warnings "-register-all".

Local Open Scope N_scope.
Local Open Scope list_scope.

(** ** Python strings *)

Definition char := N.
Definition pystr := list char.

(** [lit "abc"] is the Python literal ['abc'] (ASCII only). *)
Definition lit (s : string) : pystr :=
  map N_of_ascii (list_ascii_of_string s).

Fixpoint str_eqb (a b : pystr) : bool :=
  match a, b with
  | [], [] => true
  | x :: a', y :: b' => (x =? y) && str_eqb a' b'
  | _, _ => false
  end.

(** [a.join(l)] *)
Fixpoint join (sep : pystr) (l : list pystr) : pystr :=
  match l with
  | [] => []
  | [x] => x
  | x :: l' => x ++ sep ++ join sep l'
  end.

(** [s[len(p):]] when [s.startswith(p)] *)
Fixpoint strip_prefix (p s : pystr) : option pystr :=
  match p, s with
  | [], _ => Some s
  | x :: p', y :: s' => if x =? y then strip_prefix p' s' else None
  | _ :: _, [] => None
  end.

(** A code point that is a Unicode scalar value: in range and not a
    surrogate.  Text decoded from UTF-8, such as a submitted form
    value, consists of scalar values. *)
Definition scalar (c : char) : bool :=
  (c <? 55296) || ((57344 <=? c) && (c <? 1114112)).

Definition scalar_str (s : pystr) : bool := forallb scalar s.

(** pairwise distinct strings *)
Fixpoint distinct (l : list pystr) : bool :=
  match l with
  | [] => true
  | k :: l' => negb (existsb (str_eqb k) l') && distinct l'
  end.

(** ** Exceptions and results *)

Inductive exn : Type :=
| JSONDecodeError
| KeyError (key : pystr)
| BadRequestKeyError (key : pystr)
| TypeError
| AttributeError.

Inductive result (A : Type) : Type :=
| Ok (a : A)
| Raise (e : exn).
Arguments Ok {A} a.
Arguments Raise {A} e.

(** ** Python values *)

Section Values.

Context {float : Type}.

Inductive pyval : Type :=
| PyNone
| PyBool (b : bool)
| PyInt (z : Z)
| PyFloat (f : float)
| PyStr (s : pystr)
| PyList (l : list pyval)
| PyDict (d : list (pystr * pyval)).

Definition dict := list (pystr * pyval).

(** [d[k]] on a dict, as an option *)
Fixpoint dict_get (k : pystr) (d : dict) : option pyval :=
  match d with
  | [] => None
  | (k', v) :: d' => if str_eqb k k' then Some v else dict_get k d'
  end.

(** [d[k] = v]: an existing key keeps its position *)
Fixpoint dict_set (k : pystr) (v : pyval) (d : dict) : dict :=
  match d with
  | [] => [(k, v)]
  | (k', v') :: d' =>
      if str_eqb k k' then (k', v) :: d' else (k', v') :: dict_set k v d'
  end.

(** [dict(pairs)] *)
Definition dict_of_pairs (pairs : list (pystr * pyval)) : dict :=
  fold_left (fun d kv => dict_set (fst kv) (snd kv) d) pairs [].

Definition keys (d : dict) : list pystr := map fst d.

(** induction on a value, with the property known for the elements of a
    list and for the values of a dict *)
Fixpoint pyval_induction (P : pyval -> Prop)
    (HNone : P PyNone) (HBool : forall b, P (PyBool b))
    (HInt : forall z, P (PyInt z)) (HFloat : forall f, P (PyFloat f))
    (HStr : forall s, P (PyStr s))
    (HList : forall l, Forall P l -> P (PyList l))
    (HDict : forall d, Forall (fun kv => P (snd kv)) d -> P (PyDict d))
    (o : pyval) {struct o} : P o :=
  let rec := pyval_induction P HNone HBool HInt HFloat HStr HList HDict in
  match o with
  | PyNone => HNone
  | PyBool b => HBool b
  | PyInt z => HInt z
  | PyFloat f => HFloat f
  | PyStr s => HStr s
  | PyList l =>
      HList l ((fix all (l : list pyval) : Forall P l :=
                  match l with
                  | [] => Forall_nil P
                  | x :: l' => Forall_cons x (rec x) (all l')
                  end) l)
  | PyDict d =>
      HDict d ((fix all (d : list (pystr * pyval))
                  : Forall (fun kv => P (snd kv)) d :=
                  match d with
                  | [] => Forall_nil _
                  | kv :: d' => Forall_cons kv (rec (snd kv)) (all d')
                  end) d)
  end.

End Values.

Arguments pyval : clear implicits.
Arguments dict : clear implicits.

(** ** The [json] package: decoding

    The functions follow [json/decoder.py] and [json/scanner.py]; an
    index into the text is replaced by the text that remains. *)

Definition is_ws (c : char) : bool :=
  (c =? 32) || (c =? 9) || (c =? 10) || (c =? 13).

(** [WHITESPACE.match(s, end).end()] *)
Fixpoint skip_ws (s : pystr) : pystr :=
  match s with
  | c :: r => if is_ws c then skip_ws r else s
  | [] => []
  end.

Definition is_digit (c : char) : bool := (48 <=? c) && (c <=? 57).

(** the longest run of digits at the head of [s], and what follows *)
Fixpoint span_digits (s : pystr) : pystr * pystr :=
  match s with
  | c :: r =>
      if is_digit c then let (ds, r') := span_digits r in (c :: ds, r')
      else ([], s)
  | [] => ([], [])
  end.

(** The three groups of [NUMBER_RE]: an optional minus sign and either
    a single zero or a digit other than zero followed by digits; an
    optional fraction, a dot and at least one digit; an optional exponent,
    [e] or [E], an optional sign and at least one digit. *)
Definition match_integer (s : pystr) : option (pystr * pystr) :=
  let (sign, s1) :=
    match s with
    | c :: r => if c =? 45 then ([c], r) else ([], s)
    | [] => ([], s)
    end in
  match s1 with
  | d :: r =>
      if d =? 48 then Some (sign ++ [d], r)
      else if is_digit d then
        let (ds, r') := span_digits r in Some (sign ++ d :: ds, r')
      else None
  | [] => None
  end.

Definition match_frac (s : pystr) : pystr * pystr :=
  match s with
  | c :: r =>
      if c =? 46 then
        match span_digits r with
        | ([], _) => ([], s)
        | (ds, r') => (c :: ds, r')
        end
      else ([], s)
  | [] => ([], s)
  end.

Definition match_exp (s : pystr) : pystr * pystr :=
  match s with
  | e :: r =>
      if (e =? 101) || (e =? 69) then
        let (sign, r1) :=
          match r with
          | c :: r' => if (c =? 45) || (c =? 43) then ([c], r') else ([], r)
          | [] => ([], r)
          end in
        match span_digits r1 with
        | ([], _) => ([], s)
        | (ds, r2) => (e :: sign ++ ds, r2)
        end
      else ([], s)
  | [] => ([], s)
  end.

Definition match_number (s : pystr)
  : option (pystr * pystr * pystr * pystr) :=
  match match_integer s with
  | None => None
  | Some (integer, r) =>
      let (frac, r1) := match_frac r in
      let (exp, r2) := match_exp r1 in
      Some (integer, frac, exp, r2)
  end.

Fixpoint digits_value (acc : Z) (ds : pystr) : Z :=
  match ds with
  | [] => acc
  | d :: r => digits_value (10 * acc + Z.of_N (d - 48)) r
  end.

(** [int(integer)] on a match of the first group *)
Definition parse_int (integer : pystr) : Z :=
  match integer with
  | c :: r => if c =? 45 then (- digits_value 0 r)%Z
              else digits_value 0 integer
  | [] => 0%Z
  end.

Definition hex_value (c : char) : option N :=
  if (48 <=? c) && (c <=? 57) then Some (c - 48)
  else if (97 <=? c) && (c <=? 102) then Some (c - 87)
  else if (65 <=? c) && (c <=? 70) then Some (c - 55)
  else None.

(** [_decode_uXXXX]: four hexadecimal digits *)
Definition decode_uXXXX (h1 h2 h3 h4 : char) : option N :=
  match hex_value h1, hex_value h2, hex_value h3, hex_value h4 with
  | Some a, Some b, Some c, Some d => Some (((a * 16 + b) * 16 + c) * 16 + d)
  | _, _, _, _ => None
  end.

(** the table [BACKSLASH] *)
Definition BACKSLASH (esc : char) : option char :=
  if esc =? 34 then Some 34
  else if esc =? 92 then Some 92
  else if esc =? 47 then Some 47
  else if esc =? 98 then Some 8
  else if esc =? 102 then Some 12
  else if esc =? 110 then Some 10
  else if esc =? 114 then Some 13
  else if esc =? 116 then Some 9
  else None.

Definition is_high_surrogate (u : N) : bool := (55296 <=? u) && (u <=? 56319).
Definition is_low_surrogate (u : N) : bool := (56320 <=? u) && (u <=? 57343).

Definition join_surrogates (uni uni2 : N) : N :=
  65536 + N.lor (N.shiftl (uni - 55296) 10) (uni2 - 56320).

Definition append_char (c : char) (r : option (pystr * pystr))
  : option (pystr * pystr) :=
  match r with
  | Some (str, rest) => Some (c :: str, rest)
  | None => None
  end.

(** [scanstring(s, end, strict=True)]: [s] starts after the opening
    quote; the result is the decoded string and the text after the
    closing quote, [None] for a [JSONDecodeError]. *)
Fixpoint scanstring (s : pystr) : option (pystr * pystr) :=
  match s with
  | [] => None
  | c :: r =>
      if c =? 34 then Some ([], r)
      else if c =? 92 then
        match r with
        | [] => None
        | esc :: r1 =>
            if esc =? 117 then
              match r1 with
              | h1 :: h2 :: h3 :: h4 :: r2 =>
                  match decode_uXXXX h1 h2 h3 h4 with
                  | None => None
                  | Some uni =>
                      match r2 with
                      | b :: u :: g1 :: g2 :: g3 :: g4 :: r3 =>
                          if is_high_surrogate uni && (b =? 92) && (u =? 117)
                          then
                            match decode_uXXXX g1 g2 g3 g4 with
                            | None => None
                            | Some uni2 =>
                                if is_low_surrogate uni2
                                then append_char (join_surrogates uni uni2)
                                                 (scanstring r3)
                                else append_char uni (scanstring r2)
                            end
                          else append_char uni (scanstring r2)
                      | b :: u :: _ =>
                          if is_high_surrogate uni && (b =? 92) && (u =? 117)
                          then None
                          else append_char uni (scanstring r2)
                      | _ => append_char uni (scanstring r2)
                      end
                  end
              | _ => None
              end
            else
              match BACKSLASH esc with
              | Some ch => append_char ch (scanstring r1)
              | None => None
              end
        end
      else if c <? 32 then None
      else append_char c (scanstring r)
  end.

Inductive scanned (A : Type) : Type :=
| Parsed (a : A) (rest : pystr)
| Failed
| OutOfFuel.
Arguments Parsed {A} a rest.
Arguments Failed {A}.
Arguments OutOfFuel {A}.

(** Floating point numbers are a parameter of the model: [float(literal)],
    the text [json] prints for a float, and [bool(f)]. *)
Class FloatOps (float : Type) : Type := {
  parse_float : pystr -> float;
  floatstr : float -> pystr;
  float_bool : float -> bool
}.

Section Json.

Context {float : Type} {F : FloatOps float}.

Local Abbreviation pyval := (pyval float).

(** [_scan_once], [JSONObject] and [JSONArray].  [Failed] stands for
    [StopIteration] as well as for [JSONDecodeError]: [raw_decode] turns
    the first into the second.  The [while True] loops of [JSONObject]
    and [JSONArray] are [object_pairs] and [array_values]. *)
Fixpoint scan_once (fuel : nat) (s : pystr) {struct fuel} : scanned pyval :=
  match fuel with
  | O => OutOfFuel
  | S fuel' =>
      match s with
      | [] => Failed
      | nextchar :: s1 =>
          if nextchar =? 34 then
            match scanstring s1 with
            | Some (str, r) => Parsed (PyStr str) r
            | None => Failed
            end
          else if nextchar =? 123 then JSONObject fuel' s1
          else if nextchar =? 91 then JSONArray fuel' s1
          else
            match strip_prefix (lit "null") s with
            | Some r => Parsed PyNone r
            | None =>
            match strip_prefix (lit "true") s with
            | Some r => Parsed (PyBool true) r
            | None =>
            match strip_prefix (lit "false") s with
            | Some r => Parsed (PyBool false) r
            | None =>
            match match_number s with
            | Some (integer, frac, exp, r) =>
                match frac, exp with
                | [], [] => Parsed (PyInt (parse_int integer)) r
                | _, _ =>
                    Parsed (PyFloat (parse_float (integer ++ frac ++ exp))) r
                end
            | None =>
            match strip_prefix (lit "NaN") s with
            | Some r => Parsed (PyFloat (parse_float (lit "NaN"))) r
            | None =>
            match strip_prefix (lit "Infinity") s with
            | Some r => Parsed (PyFloat (parse_float (lit "Infinity"))) r
            | None =>
            match strip_prefix (lit "-Infinity") s with
            | Some r => Parsed (PyFloat (parse_float (lit "-Infinity"))) r
            | None => Failed
            end end end end end end end
      end
  end

with JSONObject (fuel : nat) (s : pystr) {struct fuel} : scanned pyval :=
  match fuel with
  | O => OutOfFuel
  | S fuel' =>
      match skip_ws s with
      | c :: r =>
          if c =? 125 then Parsed (PyDict []) r
          else if c =? 34 then object_pairs fuel' [] r
          else Failed
      | [] => Failed
      end
  end

with object_pairs (fuel : nat) (pairs : list (pystr * pyval)) (s : pystr)
       {struct fuel} : scanned pyval :=
  match fuel with
  | O => OutOfFuel
  | S fuel' =>
      match scanstring s with
      | None => Failed
      | Some (key, r) =>
          match skip_ws r with
          | c :: r1 =>
              if c =? 58 then
                match scan_once fuel' (skip_ws r1) with
                | Parsed value r2 =>
                    let pairs' := pairs ++ [(key, value)] in
                    match skip_ws r2 with
                    | d :: r3 =>
                        if d =? 125 then
                          Parsed (PyDict (dict_of_pairs pairs')) r3
                        else if d =? 44 then
                          match skip_ws r3 with
                          | q :: r4 =>
                              if q =? 34 then object_pairs fuel' pairs' r4
                              else Failed
                          | [] => Failed
                          end
                        else Failed
                    | [] => Failed
                    end
                | Failed => Failed
                | OutOfFuel => OutOfFuel
                end
              else Failed
          | [] => Failed
          end
      end
  end

with JSONArray (fuel : nat) (s : pystr) {struct fuel} : scanned pyval :=
  match fuel with
  | O => OutOfFuel
  | S fuel' =>
      match skip_ws s with
      | c :: r =>
          if c =? 93 then Parsed (PyList []) r
          else array_values fuel' [] (skip_ws s)
      | [] => Failed
      end
  end

with array_values (fuel : nat) (values : list pyval) (s : pystr)
       {struct fuel} : scanned pyval :=
  match fuel with
  | O => OutOfFuel
  | S fuel' =>
      match scan_once fuel' s with
      | Parsed value r =>
          let values' := values ++ [value] in
          match skip_ws r with
          | d :: r1 =>
              if d =? 93 then Parsed (PyList values') r1
              else if d =? 44 then array_values fuel' values' (skip_ws r1)
              else Failed
          | [] => Failed
          end
      | Failed => Failed
      | OutOfFuel => OutOfFuel
      end
  end.

(** Every recursive call spends one unit of fuel and at most three calls
    are made before a character is consumed. *)
Definition enough_fuel (s : pystr) : nat := 3 * List.length s + 3.

(** [json.loads(s)]: no byte order mark, one value between optional
    white space, nothing after it.  Running out of fuel is reported as a
    decoding error; [scan_once_fuel] shows that it does not happen. *)
Definition json_loads (s : pystr) : result pyval :=
  match strip_prefix [65279] s with
  | Some _ => Raise JSONDecodeError
  | None =>
      match scan_once (enough_fuel s) (skip_ws s) with
      | Parsed obj r =>
          match skip_ws r with
          | [] => Ok obj
          | _ :: _ => Raise JSONDecodeError
          end
      | Failed => Raise JSONDecodeError
      | OutOfFuel => Raise JSONDecodeError
      end
  end.

(** ** The [json] package: encoding

    [json.dump] with [indent=4] runs the Python encoder
    [_make_iterencode] of [json/encoder.py] with [ensure_ascii=True],
    item separator [','] and key separator [': ']. *)

(** one digit of the format [04x] *)
Definition hex_digit (d : N) : char := if d <? 10 then 48 + d else 87 + d.

(** ['\\u{0:04x}'.format(n)] for [n < 0x10000] *)
Definition u_escape (n : N) : pystr :=
  [92; 117; hex_digit ((n / 4096) mod 16); hex_digit ((n / 256) mod 16);
   hex_digit ((n / 16) mod 16); hex_digit (n mod 16)].

(** [replace] in [py_encode_basestring_ascii]: [ESCAPE_ASCII] matches a
    backslash, a double quote and everything outside [' '..'~']. *)
Definition escape_char (c : char) : pystr :=
  if c =? 92 then [92; 92]
  else if c =? 34 then [92; 34]
  else if (32 <=? c) && (c <=? 126) then [c]
  else if c =? 8 then [92; 98]
  else if c =? 12 then [92; 102]
  else if c =? 10 then [92; 110]
  else if c =? 13 then [92; 114]
  else if c =? 9 then [92; 116]
  else if c <? 65536 then u_escape c
  else
    let n := c - 65536 in
    u_escape (N.lor 55296 (N.land (N.shiftr n 10) 1023))
    ++ u_escape (N.lor 56320 (N.land n 1023)).

Definition encode_basestring_ascii (s : pystr) : pystr :=
  [34] ++ flat_map escape_char s ++ [34].

(** [int.__repr__] *)
Definition intstr (z : Z) : pystr := lit (NilZero.string_of_int (Z.to_int z)).

(** ['\n' + _indent * _current_indent_level] with [_indent = ' ' * 4] *)
Definition newline_indent (level : nat) : pystr :=
  10 :: repeat 32 (4 * level)%nat.

Fixpoint iterencode (level : nat) (o : pyval) : pystr :=
  match o with
  | PyStr s => encode_basestring_ascii s
  | PyNone => lit "null"
  | PyBool true => lit "true"
  | PyBool false => lit "false"
  | PyInt z => intstr z
  | PyFloat f => floatstr f
  | PyList [] => lit "[]"
  | PyList lst =>
      [91] ++ newline_indent (S level)
      ++ join (44 :: newline_indent (S level))
              (map (iterencode (S level)) lst)
      ++ newline_indent level ++ [93]
  | PyDict [] => lit "{}"
  | PyDict dct =>
      [123] ++ newline_indent (S level)
      ++ join (44 :: newline_indent (S level))
              (map (fun kv => encode_basestring_ascii (fst kv) ++ lit ": "
                              ++ iterencode (S level) (snd kv)) dct)
      ++ newline_indent level ++ [125]
  end.

(** the text [json.dump(o, file, indent=4)] writes *)
Definition json_dumps (o : pyval) : pystr := iterencode 0 o.

(** ** The world of a request, and a monad over it *)

Record world : Type := mkWorld {
  file : option pystr;              (* COURSE_FILE: absent, or its text *)
  flashes : list (pystr * pystr)    (* (category, message), oldest first *)
}.

Definition M (A : Type) : Type := world -> result A * world.

Definition ret {A} (a : A) : M A := fun w => (Ok a, w).

Definition bind {A B} (m : M A) (k : A -> M B) : M B :=
  fun w =>
    match m w with
    | (Ok a, w') => k a w'
    | (Raise e, w') => (Raise e, w')
    end.

Definition lift {A} (r : result A) : M A := fun w => (r, w).

Notation "x <- m ;; k" := (bind m (fun x => k))
  (at level 61, m at next level, right associativity).
Notation "m ;;; k" := (bind m (fun _ => k))
  (at level 61, right associativity).

(** [flash(message, category)] *)
Definition flash (message category : pystr) : M unit :=
  fun w => (Ok tt, mkWorld (file w) (flashes w ++ [(category, message)])).

(** ** Storage: [load_courses] and [save_courses] *)

Definition load_courses : M pyval :=
  fun w =>
    match file w with
    | None => (Ok (PyList []), w)
    | Some text => (json_loads text, w)
    end.

(** [courses.append(data)] *)
Definition append (courses data : pyval) : result pyval :=
  match courses with
  | PyList l => Ok (PyList (l ++ [data]))
  | _ => Raise AttributeError
  end.

(** [with open(COURSE_FILE, 'w') as file: json.dump(courses, file, indent=4)] *)
Definition dump_to_file (courses : pyval) : M unit :=
  fun w => (Ok tt, mkWorld (Some (json_dumps courses)) (flashes w)).

Definition save_courses (data : pyval) : M unit :=
  courses <- load_courses ;;
  courses' <- lift (append courses data) ;;
  dump_to_file courses'.

(** ** Python operations used by the handlers *)

(** [bool(o)] *)
Definition truthy (o : pyval) : bool :=
  match o with
  | PyNone => false
  | PyBool b => b
  | PyInt z => negb (z =? 0)%Z
  | PyFloat f => float_bool f
  | PyStr s => match s with [] => false | _ => true end
  | PyList l => match l with [] => false | _ => true end
  | PyDict d => match d with [] => false | _ => true end
  end.

(** [o[k]] with a string [k] *)
Definition getitem (o : pyval) (k : pystr) : result pyval :=
  match o with
  | PyDict d =>
      match dict_get k d with
      | Some v => Ok v
      | None => Raise (KeyError k)
      end
  | _ => Raise TypeError
  end.

(** [o == s] for a string [s] *)
Definition eq_str (o : pyval) (s : pystr) : bool :=
  match o with
  | PyStr t => str_eqb t s
  | _ => false
  end.

(** the elements [for x in o] visits *)
Definition iter (o : pyval) : result (list pyval) :=
  match o with
  | PyList l => Ok l
  | PyDict d => Ok (map (fun kv => PyStr (fst kv)) d)
  | PyStr s => Ok (map (fun c => PyStr [c]) s)
  | _ => Raise TypeError
  end.

(** [next((course for course in courses if course['code'] == code), None)]:
    the generator stops at the first match; [None] is Python's [None]. *)
Fixpoint next_course (courses : list pyval) (code : pystr)
  : result (option pyval) :=
  match courses with
  | [] => Ok None
  | course :: rest =>
      match getitem course (lit "code") with
      | Raise e => Raise e
      | Ok c => if eq_str c code then Ok (Some course)
                else next_course rest code
      end
  end.

(** ** Flask: routes, responses, requests *)

Inductive endpoint : Type :=
| ep_index | ep_course_catalog | ep_add_course.

(** the rules of [@app.route] *)
Definition url_for (e : endpoint) : pystr :=
  match e with
  | ep_index => lit "/"
  | ep_course_catalog => lit "/catalog"
  | ep_add_course => lit "/add_course"
  end.

Inductive response : Type :=
| redirect (location : pystr)
| render_template (template : pystr) (context : list (pystr * pyval)).

(** [request.method] for the methods routed to a view with
    [methods=['GET', 'POST']]; Flask answers [OPTIONS] itself. *)
Inductive http_method : Type := GET | POST | HEAD.

(** [request.form]: the submitted pairs, in order *)
Definition form_data := list (pystr * pystr).

(** [request.form[key]]: the first value of [key] *)
Fixpoint form_getitem (form : form_data) (key : pystr) : result pystr :=
  match form with
  | [] => Raise (BadRequestKeyError key)
  | (k, v) :: form' => if str_eqb key k then Ok v else form_getitem form' key
  end.

(** ** The handler [course_details] *)

Definition course_details (code : pystr) : M response :=
  courses <- load_courses ;;
  items <- lift (iter courses) ;;
  course <- lift (next_course items code) ;;
  match course with
  | Some c =>
      if truthy c then
        _ <- lift (getitem c (lit "code")) ;;
        ret (render_template (lit "course_details.html") [(lit "course", c)])
      else
        flash (lit "No course found with code '" ++ code ++ lit "'.")
              (lit "error") ;;;
        ret (redirect (url_for ep_course_catalog))
  | None =>
      flash (lit "No course found with code '" ++ code ++ lit "'.")
            (lit "error") ;;;
      ret (redirect (url_for ep_course_catalog))
  end.

(** ** The handler [add_course] *)

(** the names of the dict literal of [add_course], in its order *)
Definition course_fields : list pystr :=
  [lit "code"; lit "name"; lit "instructor"; lit "semester"; lit "schedule";
   lit "classroom"; lit "prerequisites"; lit "grading"; lit "description"].

(** [{'code': request.form['code'], ...}]: the lookups run in order and
    the first missing key raises. *)
Fixpoint form_dict (fields : list pystr) (form : form_data)
  : result (list (pystr * pystr)) :=
  match fields with
  | [] => Ok []
  | f :: fields' =>
      match form_getitem form f with
      | Raise e => Raise e
      | Ok v =>
          match form_dict fields' form with
          | Raise e => Raise e
          | Ok d => Ok ((f, v) :: d)
          end
      end
  end.

(** [[field for field, value in course.items()
      if not value and field != "description"]] *)
Definition missing_fields (course : list (pystr * pystr)) : list pystr :=
  map fst
    (filter (fun fv => match snd fv with [] => true | _ => false end
                       && negb (str_eqb (fst fv) (lit "description")))
            course).

(** [course[key]] *)
Fixpoint course_getitem (course : list (pystr * pystr)) (key : pystr)
  : result pystr :=
  match course with
  | [] => Raise (KeyError key)
  | (k, v) :: course' =>
      if str_eqb key k then Ok v else course_getitem course' key
  end.

(** the dict [course] as a Python value *)
Definition course_dict (course : list (pystr * pystr)) : pyval :=
  PyDict (map (fun fv => (fst fv, PyStr (snd fv))) course).

Definition add_course (method : http_method) (form : form_data) : M response :=
  match method with
  | POST =>
      course <- lift (form_dict course_fields form) ;;
      match missing_fields course with
      | _ :: _ =>
          let error_m :=
            lit "Missing fields: " ++ join (lit ", ") (missing_fields course) in
          flash error_m (lit "error") ;;;
          ret (redirect (url_for ep_add_course))
      | [] =>
          save_courses (course_dict course) ;;;
          _ <- lift (course_getitem course (lit "name")) ;;
          code <- lift (course_getitem course (lit "code")) ;;
          flash (lit "Course '" ++ code ++ lit "' added successfully!")
                (lit "success") ;;;
          ret (redirect (url_for ep_course_catalog))
      end
  | _ => ret (render_template (lit "add_course.html") [])
  end.

(** ** Predicates and measures used in the statements *)

(** The values whose JSON text is read back unchanged: [None], booleans,
    strings of scalar values, lists, and dicts with distinct keys, all
    the way down.  A course record whose strings are read from a form is
    one of them. *)
Fixpoint storable (o : pyval) : bool :=
  match o with
  | PyNone | PyBool _ => true
  | PyStr s => scalar_str s
  | PyList l => forallb storable l
  | PyDict d =>
      distinct (keys d)
      && forallb (fun kv => scalar_str (fst kv) && storable (snd kv)) d
  | PyInt _ | PyFloat _ => false
  end.

(** A course as the catalog holds it: a dict with the nine fields, each a
    string. *)
Definition is_course (o : pyval) : bool :=
  match o with
  | PyDict d =>
      forallb (fun f => match dict_get f d with
                        | Some (PyStr _) => true
                        | _ => false
                        end) course_fields
  | _ => false
  end.

(** [course['code']] of a course record ([[]] for any other value) *)
Definition code_of (o : pyval) : pystr :=
  match getitem o (lit "code") with
  | Ok (PyStr c) => c
  | _ => []
  end.

(** the characters the text of a value of [storable] starts with *)
Definition value_start (c : char) : Prop :=
  In c [34; 110; 116; 102; 91; 123].

(** the fuel [scan_once] needs on the text of [o] *)
Fixpoint cost (o : pyval) : nat :=
  match o with
  | PyList l => 2 + list_sum (map (fun x => S (cost x)) l)
  | PyDict d => 2 + list_sum (map (fun kv => S (cost (snd kv))) d)
  | _ => 1
  end.

(** the eight fields a submission must fill in *)
Definition required_fields : list pystr :=
  [lit "code"; lit "name"; lit "instructor"; lit "semester"; lit "schedule";
   lit "classroom"; lit "prerequisites"; lit "grading"].

(** [not value] for a string *)
Definition empty (value : pystr) : bool :=
  match value with [] => true | _ :: _ => false end.

(** [request.form[key]] is the empty string *)
Definition blank (form : form_data) (key : pystr) : bool :=
  match form_getitem form key with
  | Ok value => empty value
  | Raise _ => false
  end.

(** a string of one or more of the characters of [string.whitespace] *)
Definition whitespace_only (value : pystr) : bool :=
  negb (empty value)
  && forallb (fun c => (c =? 32) || ((9 <=? c) && (c <=? 13))) value.

(** the text of [o], followed by anything, is scanned back to [o] *)
Definition reads_back (o : pyval) : Prop :=
  storable o = true ->
  forall level rest fuel,
    (cost o <= fuel)%nat ->
    scan_once fuel (iterencode level o ++ rest) = Parsed o rest.

End Json.

(** ** The handlers [index] and [course_catalog] *)

Section Pages.

Context {float : Type} {F : FloatOps float}.

Local Abbreviation pyval := (pyval float).

(** [len(o)] *)
Definition len (o : pyval) : result nat :=
  match o with
  | PyList l => Ok (List.length l)
  | PyDict d => Ok (List.length d)
  | PyStr s => Ok (List.length s)
  | _ => Raise TypeError
  end.

Definition index : M (@response float) :=
  ret (render_template (lit "index.html") []).

(** [len(courses)] is evaluated for the span attribute [course_count]
    before the template is rendered. *)
Definition course_catalog : M (@response float) :=
  bind load_courses (fun courses =>
  bind (lift (len courses)) (fun _ =>
  ret (render_template (lit "course_catalog.html")
                       [(lit "courses", courses)]))).

(** ** More predicates used in the statements *)

(** A course with the nine fields, each a string, and every field but
    the description non-empty. *)
Definition complete_course (o : pyval) : bool :=
  match o with
  | PyDict d =>
      forallb (fun f => match dict_get f d with
                        | Some (PyStr s) =>
                            negb (empty s) || str_eqb f (lit "description")
                        | _ => false
                        end) course_fields
  | _ => false
  end.

(** a line feed or a printable ASCII character *)
Definition plain_ascii (c : char) : bool :=
  (c =? 10) || ((32 <=? c) && (c <=? 126)).

(** a value without floating point numbers *)
Fixpoint float_free (o : pyval) : bool :=
  match o with
  | PyFloat _ => false
  | PyList l => forallb float_free l
  | PyDict d => forallb (fun kv => float_free (snd kv)) d
  | _ => true
  end.

(** the value of a form field, the empty string when the field is absent *)
Definition form_value (form : form_data) (key : pystr) : pystr :=
  match form_getitem form key with
  | Ok v => v
  | Raise _ => []
  end.

(** the dict [course] that [add_course] builds from a form with the nine
    field names *)
Definition course_of_form (form : form_data) : list (pystr * pystr) :=
  map (fun f => (f, form_value form f)) course_fields.

(** the message [add_course] flashes after a save *)
Definition added_flash (code : pystr) : pystr * pystr :=
  (lit "success", lit "Course '" ++ code ++ lit "' added successfully!").

(** the message [course_details] flashes *)
Definition not_found_flash (code : pystr) : pystr * pystr :=
  (lit "error", lit "No course found with code '" ++ code ++ lit "'.").

End Pages.

(** ** Sample data

    The instance [literal_floats] lets the model run: a float is kept as
    its literal.  It is used on inputs without floats only. *)

#[export] Instance literal_floats : FloatOps pystr := {|
  parse_float := fun literal => literal;
  floatstr := fun literal => literal;
  float_bool := fun _ => true
|}.

(** a submission of the add-course form *)
Definition course_form (code name instructor : pystr) : form_data :=
  [(lit "code", code); (lit "name", name); (lit "instructor", instructor);
   (lit "semester", lit "F24"); (lit "schedule", lit "MWF");
   (lit "classroom", lit "101"); (lit "prerequisites", lit "none");
   (lit "grading", lit "A-F"); (lit "description", [])].

(** the record [add_course] stores for it *)
Definition course_record (code name instructor : pystr) : pyval pystr :=
  course_dict (course_form code name instructor).

Definition cs203 : pyval pystr :=
  course_record (lit "CS203") (lit "Systems") (lit "A").
Definition cs301 : pyval pystr :=
  course_record (lit "CS301") (lit "Networks") (lit "B").
Definition cs301' : pyval pystr :=
  course_record (lit "CS301") (lit "Networks, evening") (lit "C").

(** a world whose file holds the given courses, as [json.dump] writes them *)
Definition stored (cs : list (pyval pystr)) : world :=
  mkWorld (Some (json_dumps (PyList cs))) [].

(** * Properties *)

(** ** Strings *)

Lemma str_eqb_eq (a b : pystr) : str_eqb a b = true <-> a = b.
Proof.
  revert b. induction a as [|x a IH]; intros [|y b]; simpl;
    try (split; [discriminate | discriminate]); try tauto.
  rewrite andb_true_iff, N.eqb_eq, IH. split.
  - intros [-> ->]. reflexivity.
  - intros H. injection H as -> ->. split; reflexivity.
Qed.

Lemma str_eqb_refl (a : pystr) : str_eqb a a = true.
Proof. now apply str_eqb_eq. Qed.

Lemma str_eqb_neq (a b : pystr) : str_eqb a b = false <-> a <> b.
Proof.
  rewrite <- str_eqb_eq. destruct (str_eqb a b); split; congruence.
Qed.

Lemma scalar_spec (c : char) :
  scalar c = true <-> c < 55296 \/ (57344 <= c /\ c < 1114112).
Proof.
  unfold scalar.
  rewrite orb_true_iff, andb_true_iff, !N.ltb_lt, N.leb_le. tauto.
Qed.

Lemma existsb_str_eqb (k : pystr) (l : list pystr) :
  existsb (str_eqb k) l = true <-> In k l.
Proof.
  rewrite existsb_exists. split.
  - intros [x [Hx He]]. apply str_eqb_eq in He. now subst.
  - intros H. exists k. split; [assumption | apply str_eqb_refl].
Qed.

Lemma distinct_NoDup (l : list pystr) : distinct l = true <-> NoDup l.
Proof.
  induction l as [|k l IH]; simpl.
  - split; [constructor | reflexivity].
  - rewrite andb_true_iff, negb_true_iff, IH. split.
    + intros [Hk Hl]. constructor; [|assumption].
      rewrite <- existsb_str_eqb. congruence.
    + intros H. inversion H as [|? ? Hk Hl]; subst. split; [|assumption].
      rewrite <- existsb_str_eqb in Hk. now destruct (existsb _ l).
Qed.

Lemma length_join (sep : pystr) (l : list pystr) :
  (list_sum (map (@List.length char) l) <= List.length (join sep l))%nat.
Proof.
  induction l as [|x l IH]; [apply le_n|].
  destruct l as [|y l]; [simpl; lia|].
  change (join sep (x :: y :: l)) with (x ++ sep ++ join sep (y :: l)).
  rewrite !length_app. simpl map in *. simpl list_sum in *. lia.
Qed.

Lemma list_sum_cons (a : nat) (l : list nat) :
  list_sum (a :: l) = (a + list_sum l)%nat.
Proof. reflexivity. Qed.

Lemma filter_nil {A} (p : A -> bool) (l : list A) :
  filter p l = [] <-> forall x, In x l -> p x = false.
Proof.
  induction l as [|a l IH]; simpl.
  - split; [intros _ x [] | reflexivity].
  - destruct (p a) eqn:E.
    + split; [discriminate|]. intros H. specialize (H a (or_introl eq_refl)).
      congruence.
    + rewrite IH. split.
      * intros H x [<- | Hx]; auto.
      * intros H x Hx. auto.
Qed.

(** ** Arithmetic of the escapes *)

Ltac Zify.zify_post_hook ::= Z.to_euclidean_division_equations.

Lemma land_shifted_low (a b k : N) : b < 2 ^ k -> N.land (a * 2 ^ k) b = 0.
Proof.
  intros Hb. apply N.bits_inj. intros m. rewrite N.land_spec, N.bits_0.
  destruct (N.lt_ge_cases m k) as [Hm | Hm].
  - now rewrite N.mul_pow2_bits_low.
  - destruct (N.eq_dec b 0) as [-> | Hnz].
    + now rewrite N.bits_0, andb_false_r.
    + rewrite (N.bits_above_log2 b m), andb_false_r; [reflexivity|].
      apply N.log2_lt_pow2; [lia|].
      apply N.lt_le_trans with (2 ^ k); [assumption|].
      apply N.pow_le_mono_r; lia.
Qed.

Lemma lor_shifted_low (a b k : N) :
  b < 2 ^ k -> N.lor (a * 2 ^ k) b = a * 2 ^ k + b.
Proof.
  intros Hb. pose proof (land_shifted_low a b k Hb) as H.
  now rewrite (N.add_nocarry_lxor _ _ H), (N.lxor_lor _ _ H).
Qed.

Lemma high_surrogate_value (n : N) :
  n < 1048576 ->
  N.lor 55296 (N.land (N.shiftr n 10) 1023) = 55296 + n / 1024.
Proof.
  intros Hn. change 1023 with (N.ones 10).
  rewrite N.land_ones, N.shiftr_div_pow2. change (2 ^ 10) with 1024.
  rewrite N.mod_small by lia.
  change 55296 with (54 * 2 ^ 10). apply lor_shifted_low.
  change (2 ^ 10) with 1024. lia.
Qed.

Lemma low_surrogate_value (n : N) :
  N.lor 56320 (N.land n 1023) = 56320 + n mod 1024.
Proof.
  change 1023 with (N.ones 10). rewrite N.land_ones.
  change (2 ^ 10) with 1024.
  change 56320 with (55 * 2 ^ 10). apply lor_shifted_low.
  change (2 ^ 10) with 1024. lia.
Qed.

Lemma join_surrogates_value (n : N) :
  n < 1048576 ->
  join_surrogates (55296 + n / 1024) (56320 + n mod 1024) = 65536 + n.
Proof.
  intros Hn. unfold join_surrogates.
  replace (55296 + n / 1024 - 55296) with (n / 1024) by lia.
  replace (56320 + n mod 1024 - 56320) with (n mod 1024) by lia.
  rewrite N.shiftl_mul_pow2, lor_shifted_low; change (2 ^ 10) with 1024; lia.
Qed.

Lemma forall_below (P : N -> bool) (k : nat) :
  forallb P (map N.of_nat (seq 0 k)) = true ->
  forall d, d < N.of_nat k -> P d = true.
Proof.
  intros H d Hd. rewrite forallb_forall in H. apply H.
  apply in_map_iff. exists (N.to_nat d). split; [lia|].
  apply in_seq. lia.
Qed.

Lemma hex_value_digit (d : N) : d < 16 -> hex_value (hex_digit d) = Some d.
Proof.
  intros Hd.
  pose proof (forall_below
    (fun d => match hex_value (hex_digit d) with
              | Some e => e =? d
              | None => false
              end) 16 eq_refl d Hd) as H.
  cbv beta in H. destruct (hex_value (hex_digit d)) as [e|]; [|discriminate].
  apply N.eqb_eq in H. now subst.
Qed.

Lemma decode_u_escape (n : N) :
  n < 65536 ->
  decode_uXXXX (hex_digit ((n / 4096) mod 16)) (hex_digit ((n / 256) mod 16))
               (hex_digit ((n / 16) mod 16)) (hex_digit (n mod 16)) = Some n.
Proof.
  intros Hn. unfold decode_uXXXX.
  rewrite !hex_value_digit by (apply N.mod_upper_bound; lia).
  f_equal. lia.
Qed.

(** ** [scanstring] reads back what [encode_basestring_ascii] writes *)

Lemma scanstring_plain (c : char) (t : pystr) :
  c <> 34 -> c <> 92 -> 32 <= c ->
  scanstring (c :: t) = append_char c (scanstring t).
Proof.
  intros H1 H2 H3. simpl.
  apply N.eqb_neq in H1, H2. rewrite H1, H2.
  destruct (N.ltb_spec c 32); [lia | reflexivity].
Qed.

Lemma scanstring_u (h1 h2 h3 h4 : char) (uni : N) (t : pystr) :
  decode_uXXXX h1 h2 h3 h4 = Some uni -> is_high_surrogate uni = false ->
  scanstring (92 :: 117 :: h1 :: h2 :: h3 :: h4 :: t)
  = append_char uni (scanstring t).
Proof.
  intros H1 H2. simpl. rewrite H1, H2. simpl.
  destruct t as [|b [|u [|g1 [|g2 [|g3 [|g4 r3]]]]]]; reflexivity.
Qed.

Lemma scanstring_pair (h1 h2 h3 h4 g1 g2 g3 g4 : char) (uni uni2 : N)
      (t : pystr) :
  decode_uXXXX h1 h2 h3 h4 = Some uni -> is_high_surrogate uni = true ->
  decode_uXXXX g1 g2 g3 g4 = Some uni2 -> is_low_surrogate uni2 = true ->
  scanstring (92 :: 117 :: h1 :: h2 :: h3 :: h4
              :: 92 :: 117 :: g1 :: g2 :: g3 :: g4 :: t)
  = append_char (join_surrogates uni uni2) (scanstring t).
Proof.
  intros H1 H2 H3 H4. simpl. rewrite H1, H2. simpl. now rewrite H3, H4.
Qed.

Ltac not_char c n :=
  let H := fresh in
  assert (H : (c =? n) = false) by (apply N.eqb_neq; lia); rewrite H; clear H.

Lemma scanstring_escape_char (c : char) (t : pystr) :
  scalar c = true ->
  scanstring (escape_char c ++ t) = append_char c (scanstring t).
Proof.
  intros Hc. apply scalar_spec in Hc. unfold escape_char.
  destruct (N.eqb_spec c 92) as [-> | N92]; [reflexivity|].
  destruct (N.eqb_spec c 34) as [-> | N34]; [reflexivity|].
  destruct (N.leb_spec 32 c) as [L32 | L32]; simpl andb.
  - destruct (N.leb_spec c 126) as [L126 | L126].
    + now apply scanstring_plain.
    + not_char c 8. not_char c 12. not_char c 10. not_char c 13. not_char c 9.
      destruct (N.ltb_spec c 65536) as [L | L].
      * apply scanstring_u; [now apply decode_u_escape|].
        unfold is_high_surrogate.
        apply andb_false_iff. rewrite N.leb_gt, N.leb_gt. lia.
      * assert (Hn : c - 65536 < 1048576) by lia.
        rewrite high_surrogate_value, low_surrogate_value by assumption.
        replace c with (65536 + (c - 65536)) at 3 by lia.
        rewrite <- join_surrogates_value by assumption.
        assert (Hhi : 55296 <= 55296 + (c - 65536) / 1024 <= 56319) by lia.
        assert (Hlo : 56320 <= 56320 + (c - 65536) mod 1024 <= 57343) by lia.
        revert Hhi Hlo.
        generalize (55296 + (c - 65536) / 1024) as hi.
        generalize (56320 + (c - 65536) mod 1024) as lo.
        intros lo hi Hhi Hlo. unfold u_escape. cbn [app].
        apply scanstring_pair.
        -- apply decode_u_escape. lia.
        -- unfold is_high_surrogate. apply andb_true_iff.
           rewrite !N.leb_le. lia.
        -- apply decode_u_escape. lia.
        -- unfold is_low_surrogate. apply andb_true_iff.
           rewrite !N.leb_le. lia.
  - destruct (N.eqb_spec c 8) as [-> | N8]; [reflexivity|].
    destruct (N.eqb_spec c 12) as [-> | N12]; [reflexivity|].
    destruct (N.eqb_spec c 10) as [-> | N10]; [reflexivity|].
    destruct (N.eqb_spec c 13) as [-> | N13]; [reflexivity|].
    destruct (N.eqb_spec c 9) as [-> | N9]; [reflexivity|].
    assert (Hlt : (c <? 65536) = true) by (apply N.ltb_lt; lia).
    rewrite Hlt.
    apply scanstring_u; [apply decode_u_escape; lia|].
    unfold is_high_surrogate. apply andb_false_iff. rewrite N.leb_gt. lia.
Qed.

Lemma scanstring_encoded (s rest : pystr) :
  scalar_str s = true ->
  scanstring (flat_map escape_char s ++ 34 :: rest) = Some (s, rest).
Proof.
  unfold scalar_str. induction s as [|c s IH]; simpl forallb; intros H.
  - reflexivity.
  - apply andb_true_iff in H. destruct H as [Hc Hs].
    simpl flat_map. rewrite <- app_assoc, scanstring_escape_char by assumption.
    now rewrite IH.
Qed.

(** ** White space *)

Lemma skip_ws_spaces (n : nat) (t : pystr) :
  skip_ws (repeat 32 n ++ t) = skip_ws t.
Proof. induction n as [|n IH]; [reflexivity | exact IH]. Qed.

Lemma skip_ws_newline_indent (level : nat) (t : pystr) :
  skip_ws (newline_indent level ++ t) = skip_ws t.
Proof. unfold newline_indent. simpl. apply skip_ws_spaces. Qed.

Lemma skip_ws_start (c : char) (t : pystr) :
  value_start c -> skip_ws (c :: t) = c :: t.
Proof.
  unfold value_start. simpl.
  intros [<-|[<-|[<-|[<-|[<-|[<-|[]]]]]]]; reflexivity.
Qed.

Lemma skip_ws_text (s u : pystr) :
  (exists c t, s = c :: t /\ value_start c) -> skip_ws (s ++ u) = s ++ u.
Proof. intros [c [t [-> Hc]]]. now apply skip_ws_start. Qed.

(** ** The scanning functions consume their input *)

Ltac lengths := unfold pystr, char in *; simpl List.length in *; lia.

Lemma skip_ws_length (s : pystr) :
  (List.length (skip_ws s) <= List.length s)%nat.
Proof.
  induction s as [|c s IH]; simpl; [lengths|].
  destruct (is_ws c); lengths.
Qed.

Lemma strip_prefix_length (p s r : pystr) :
  strip_prefix p s = Some r ->
  (List.length r + List.length p = List.length s)%nat.
Proof.
  revert s. induction p as [|x p IH]; intros [|y s]; simpl; intros H;
    try discriminate; try (injection H as <-; lengths).
  destruct (x =? y); [|discriminate]. apply IH in H. lengths.
Qed.

Lemma span_digits_length (s ds r : pystr) :
  span_digits s = (ds, r) ->
  (List.length ds + List.length r = List.length s)%nat.
Proof.
  revert ds r. induction s as [|c s IH]; simpl; intros ds r H.
  - injection H as <- <-. reflexivity.
  - destruct (is_digit c).
    + destruct (span_digits s) as [ds' r'] eqn:E. injection H as <- <-.
      specialize (IH ds' r' eq_refl). simpl. lengths.
    + injection H as <- <-. reflexivity.
Qed.

Lemma match_integer_length (s i r : pystr) :
  match_integer s = Some (i, r) -> (List.length r < List.length s)%nat.
Proof.
  unfold match_integer. intros H.
  assert (Hgen : forall sign s1,
             (List.length s1 <= List.length s)%nat ->
             match s1 with
             | [] => None
             | d :: r0 =>
                 if d =? 48 then Some (sign ++ [d], r0)
                 else if is_digit d
                      then let (ds, r') := span_digits r0 in
                           Some (sign ++ d :: ds, r')
                      else None
             end = Some (i, r) -> (List.length r < List.length s)%nat).
  { intros sign [|d r0] Hle Hm; [discriminate|]. simpl in Hle.
    destruct (d =? 48).
    - injection Hm as <- <-. lengths.
    - destruct (is_digit d); [|discriminate].
      destruct (span_digits r0) as [ds r'] eqn:E. injection Hm as <- <-.
      apply span_digits_length in E. lengths. }
  destruct s as [|c s']; [discriminate|].
  destruct (c =? 45).
  - apply (Hgen [c] s'); [lengths | exact H].
  - apply (Hgen [] (c :: s')); [lengths | exact H].
Qed.

Lemma match_frac_length (s f r : pystr) :
  match_frac s = (f, r) -> (List.length r <= List.length s)%nat.
Proof.
  unfold match_frac. destruct s as [|c s']; intros H.
  - injection H as <- <-. lengths.
  - destruct (c =? 46).
    + destruct (span_digits s') as [[|d ds] r'] eqn:E; injection H as <- <-.
      * lengths.
      * apply span_digits_length in E. lengths.
    + injection H as <- <-. lengths.
Qed.

Lemma match_exp_length (s e r : pystr) :
  match_exp s = (e, r) -> (List.length r <= List.length s)%nat.
Proof.
  unfold match_exp. destruct s as [|c s']; intros H.
  - injection H as <- <-. lengths.
  - destruct ((c =? 101) || (c =? 69)).
    + assert (Hgen : forall sign r1,
                 (List.length r1 <= List.length s')%nat ->
                 (let (ds, r2) := span_digits r1 in
                  match ds with
                  | [] => ([], c :: s')
                  | _ :: _ => (c :: sign ++ ds, r2)
                  end) = (e, r) -> (List.length r <= List.length (c :: s'))%nat).
      { intros sign r1 Hle Hm.
        destruct (span_digits r1) as [[|d ds] r2] eqn:E; injection Hm as <- <-.
        - lengths.
        - apply span_digits_length in E. lengths. }
      destruct s' as [|c' r'].
      * apply (Hgen [] []); [lengths | exact H].
      * destruct ((c' =? 45) || (c' =? 43)).
        -- apply (Hgen [c'] r'); [lengths | exact H].
        -- apply (Hgen [] (c' :: r')); [lengths | exact H].
    + injection H as <- <-. lengths.
Qed.

Lemma match_number_length (s i f e r : pystr) :
  match_number s = Some (i, f, e, r) -> (List.length r < List.length s)%nat.
Proof.
  unfold match_number. intros H.
  destruct (match_integer s) as [[i' r0]|] eqn:Ei; [|discriminate].
  destruct (match_frac r0) as [f' r1] eqn:Ef.
  destruct (match_exp r1) as [e' r2] eqn:Ee.
  injection H as <- <- <- <-.
  apply match_integer_length in Ei. apply match_frac_length in Ef.
  apply match_exp_length in Ee. lengths.
Qed.

Lemma scanstring_length_bounded (n : nat) (s str r : pystr) :
  (List.length s <= n)%nat ->
  scanstring s = Some (str, r) -> (List.length r < List.length s)%nat.
Proof.
  revert s str r. induction n as [|n IH]; intros s str r Hn H.
  - destruct s; [discriminate | simpl in Hn; lia].
  - destruct s as [|c s1]; [discriminate|]. simpl in H.
    repeat match goal with
    | H : None = Some _ |- _ => discriminate H
    | H : Some (_, _) = Some (_, _) |- _ => injection H as <- <-
    | H : append_char _ (scanstring ?t) = Some _ |- _ =>
        let E := fresh "E" in
        destruct (scanstring t) as [[? ?]|] eqn:E; simpl in H;
        [apply IH in E; [|lengths] | discriminate H]
    | H : context [if ?b then _ else _] |- _ => destruct b eqn:?
    | H : context [match ?x with _ => _ end] |- _ => destruct x eqn:?
    end; lengths.
Qed.

Lemma scanstring_length (s str r : pystr) :
  scanstring s = Some (str, r) -> (List.length r < List.length s)%nat.
Proof. now apply (scanstring_length_bounded (List.length s)). Qed.

(** ** The course draft and its validation *)

Lemma form_getitem_cases (form : form_data) (key : pystr) :
  (exists v, form_getitem form key = Ok v /\ In key (map fst form))
  \/ (form_getitem form key = Raise (BadRequestKeyError key)
      /\ ~ In key (map fst form)).
Proof.
  induction form as [|[k v] form IH]; simpl.
  - right. split; [reflexivity | tauto].
  - destruct (str_eqb key k) eqn:E.
    + apply str_eqb_eq in E. left. exists v. split; [reflexivity | now left].
    + apply str_eqb_neq in E. destruct IH as [[u [Hu Hin]] | [Hr Hout]].
      * left. exists u. split; [assumption | now right].
      * right. split; [assumption|]. intros [Hk | Hk]; congruence.
Qed.

Lemma form_dict_fields (form : form_data) (fields : list pystr)
      (course : list (pystr * pystr)) :
  form_dict fields form = Ok course ->
  course = map (fun f => (f, match form_getitem form f with
                             | Ok v => v
                             | Raise _ => []
                             end)) fields
  /\ forall f, In f fields -> exists v, form_getitem form f = Ok v.
Proof.
  revert course. induction fields as [|f fields IH]; simpl; intros course H.
  - injection H as <-. split; [reflexivity | intros f []].
  - destruct (form_getitem form f) as [v|e] eqn:Ef; [|discriminate].
    destruct (form_dict fields form) as [d|e]; [|discriminate].
    injection H as <-. destruct (IH d eq_refl) as [-> Hall]. split.
    + reflexivity.
    + intros g [<- | Hg]; [eauto | auto].
Qed.

Lemma form_dict_total (form : form_data) (fields : list pystr) :
  (forall f, In f fields -> exists v, form_getitem form f = Ok v) ->
  exists course, form_dict fields form = Ok course.
Proof.
  induction fields as [|f fields IH]; simpl; intros H; [eauto|].
  destruct (H f (or_introl eq_refl)) as [v ->].
  destruct IH as [d ->]; [auto | eauto].
Qed.

Lemma form_dict_raise (form : form_data) (fields : list pystr) (f : pystr) :
  In f fields -> ~ In f (map fst form) ->
  exists k, In k fields /\ ~ In k (map fst form)
            /\ form_dict fields form = Raise (BadRequestKeyError k).
Proof.
  induction fields as [|g fields IH]; intros Hf Hout; [contradiction|].
  simpl form_dict.
  destruct (form_getitem_cases form g) as [[v [Hv Hin]] | [Hr Hg]].
  - rewrite Hv. destruct Hf as [-> | Hf]; [contradiction|].
    destruct (IH Hf Hout) as [k [Hk [Hko Hraise]]].
    exists k. rewrite Hraise. split; [now right | now split].
  - rewrite Hr. exists g. split; [now left | now split].
Qed.

Lemma missing_fields_map (form : form_data) (fields : list pystr) :
  missing_fields (map (fun f => (f, match form_getitem form f with
                                    | Ok v => v
                                    | Raise _ => []
                                    end)) fields)
  = filter (fun f => empty (match form_getitem form f with
                            | Ok v => v
                            | Raise _ => []
                            end)
                     && negb (str_eqb f (lit "description"))) fields.
Proof.
  unfold missing_fields. induction fields as [|f fields IH]; [reflexivity|].
  simpl map. simpl filter. simpl fst. simpl snd.
  change (match
             match form_getitem form f with Ok v => v | Raise _ => [] end
           with [] => true | _ :: _ => false end)
    with (empty (match form_getitem form f with Ok v => v | Raise _ => [] end)).
  destruct (empty _ && negb (str_eqb f (lit "description"))); simpl;
    now rewrite <- IH.
Qed.

(** the missing fields of a draft built from a form with all nine keys *)
Lemma missing_fields_form (form : form_data) (course : list (pystr * pystr)) :
  form_dict course_fields form = Ok course ->
  missing_fields course = filter (blank form) required_fields.
Proof.
  intros H. destruct (form_dict_fields _ _ _ H) as [-> Hall].
  rewrite missing_fields_map.
  change course_fields with (required_fields ++ [lit "description"]).
  rewrite filter_app.
  assert (Hd : forall v : pystr,
             (empty v && negb (str_eqb (lit "description") (lit "description")))
             = false).
  { intros v. rewrite str_eqb_refl. apply andb_false_r. }
  simpl filter at 2. rewrite Hd, app_nil_r.
  apply filter_ext_in. intros f Hf.
  assert (Hn : str_eqb f (lit "description") = false).
  { simpl in Hf.
    destruct Hf as [<-|[<-|[<-|[<-|[<-|[<-|[<-|[<-|[]]]]]]]]]; reflexivity. }
  rewrite Hn, andb_true_r. unfold blank.
  destruct (Hall f) as [v ->]; [|reflexivity].
  change course_fields with (required_fields ++ [lit "description"]).
  apply in_or_app. now left.
Qed.

Lemma whitespace_only_not_empty (v : pystr) :
  whitespace_only v = true -> v <> [].
Proof. intros H ->. discriminate. Qed.

(** C1.  For a form that carries the nine field names, the course draft
    is built, its missing fields are exactly the required fields whose
    value is the empty string, in the order code, name, instructor,
    semester, schedule, classroom, prerequisites, grading, and no field
    is missing if and only if each of the eight required fields has a
    non-empty value; the value of description plays no part. *)
Theorem validate_new_course (form : form_data) :
  (forall f, In f course_fields -> exists v, form_getitem form f = Ok v) ->
  exists course,
    form_dict course_fields form = Ok course
    /\ missing_fields course = filter (blank form) required_fields
    /\ (missing_fields course = [] <->
        forall f, In f required_fields -> form_getitem form f <> Ok []).
Proof.
  intros Hall. destruct (form_dict_total form course_fields Hall) as [course E].
  exists course. split; [assumption|].
  pose proof (missing_fields_form form course E) as HM.
  split; [assumption|]. rewrite HM, filter_nil. unfold blank.
  split; intros H f Hf; specialize (H f Hf).
  - destruct (form_getitem form f) as [[|c v]|e]; simpl in H;
      discriminate.
  - destruct (form_getitem form f) as [[|c v]|e];
      [now elim H | reflexivity | reflexivity].
Qed.

Section ValueProperties.

Context {float : Type}.

Local Abbreviation pyval := (pyval float).

(** ** Dicts *)

Lemma dict_set_fresh (k : pystr) (v : pyval) (d : dict float) :
  ~ In k (keys d) -> dict_set k v d = d ++ [(k, v)].
Proof.
  induction d as [|[k' v'] d IH]; simpl; intros H; [reflexivity|].
  destruct (str_eqb k k') eqn:E.
  - apply str_eqb_eq in E. subst. tauto.
  - rewrite IH by tauto. reflexivity.
Qed.

Lemma dict_of_pairs_app (pairs acc : dict float) :
  NoDup (keys (acc ++ pairs)) ->
  fold_left (fun d kv => dict_set (fst kv) (snd kv) d) pairs acc
  = acc ++ pairs.
Proof.
  revert acc. induction pairs as [|[k v] pairs IH]; intros acc H; simpl.
  - now rewrite app_nil_r.
  - rewrite dict_set_fresh.
    + rewrite IH; rewrite <- app_assoc; [reflexivity | assumption].
    + unfold keys in *. rewrite map_app in H. simpl in H.
      apply NoDup_remove_2 in H. rewrite in_app_iff in H. tauto.
Qed.

Lemma dict_of_pairs_distinct (d : dict float) :
  distinct (keys d) = true -> dict_of_pairs d = d.
Proof.
  intros H. apply distinct_NoDup in H. unfold dict_of_pairs.
  now rewrite dict_of_pairs_app.
Qed.

Lemma storable_snoc (cs : list pyval) (c : pyval) :
  storable (PyList cs) = true -> storable c = true ->
  storable (PyList (cs ++ [c])) = true.
Proof.
  simpl. intros H1 H2. rewrite forallb_app, H1. simpl. now rewrite H2.
Qed.

Lemma course_dict_storable (vals : pystr -> pystr) :
  (forall f, In f course_fields -> scalar_str (vals f) = true) ->
  storable (course_dict (map (fun f => (f, vals f)) course_fields) : pyval)
  = true.
Proof.
  intros H.
  assert (H0 := H (lit "code")). assert (H1 := H (lit "name")).
  assert (H2 := H (lit "instructor")). assert (H3 := H (lit "semester")).
  assert (H4 := H (lit "schedule")). assert (H5 := H (lit "classroom")).
  assert (H6 := H (lit "prerequisites")). assert (H7 := H (lit "grading")).
  assert (H8 := H (lit "description")).
  unfold course_dict, course_fields. cbn [map fst snd storable keys forallb].
  rewrite H0, H1, H2, H3, H4, H5, H6, H7, H8 by (simpl; tauto).
  reflexivity.
Qed.

(** ** Lookup by code *)

Lemma is_course_code (o : pyval) :
  is_course o = true ->
  exists d, o = PyDict d /\ d <> []
            /\ dict_get (lit "code") d = Some (PyStr (code_of o)).
Proof.
  destruct o as [| | | | | |d]; try discriminate.
  unfold is_course, course_fields. cbn [forallb]. intros H.
  apply andb_true_iff in H. destruct H as [H _].
  exists d. split; [reflexivity|]. unfold code_of, getitem.
  destruct (dict_get (lit "code") d) as [[| | | |s| |]|] eqn:E;
    try discriminate.
  split; [|reflexivity]. intros ->. discriminate.
Qed.

Lemma getitem_code (o : pyval) :
  is_course o = true -> getitem o (lit "code") = Ok (PyStr (code_of o)).
Proof.
  intros H. destruct (is_course_code o H) as [d [-> [_ E]]].
  unfold getitem. now rewrite E.
Qed.

Lemma next_course_none (cs : list pyval) (code : pystr) :
  forallb is_course cs = true ->
  (forall y, In y cs -> code_of y <> code) ->
  next_course cs code = Ok None.
Proof.
  induction cs as [|c cs IH]; simpl; intros Hc Hno; [reflexivity|].
  apply andb_true_iff in Hc. destruct Hc as [Hc Hcs].
  rewrite (getitem_code c Hc). simpl eq_str.
  assert (E : str_eqb (code_of c) code = false)
    by (apply str_eqb_neq; apply Hno; now left).
  rewrite E. apply IH; [assumption|]. intros y Hy. apply Hno. now right.
Qed.

Lemma next_course_first (pre post : list pyval) (y : pyval) (code : pystr) :
  forallb is_course (pre ++ y :: post) = true ->
  code_of y = code ->
  (forall z, In z pre -> code_of z <> code) ->
  next_course (pre ++ y :: post) code = Ok (Some y).
Proof.
  induction pre as [|c pre IH]; simpl; intros Hc Hy Hno;
    apply andb_true_iff in Hc; destruct Hc as [Hc Hcs].
  - rewrite (getitem_code y Hc). simpl eq_str.
    now rewrite Hy, str_eqb_refl.
  - rewrite (getitem_code c Hc). simpl eq_str.
    assert (E : str_eqb (code_of c) code = false)
      by (apply str_eqb_neq; apply Hno; now left).
    rewrite E. apply IH; [assumption | assumption |].
    intros z Hz. apply Hno. now right.
Qed.

Lemma first_match (cs : list pyval) (code : pystr) :
  (exists x, In x cs /\ code_of x = code) ->
  exists pre y post,
    cs = pre ++ y :: post /\ code_of y = code
    /\ forall z, In z pre -> code_of z <> code.
Proof.
  induction cs as [|c cs IH]; intros [x [Hx Hcode]]; [contradiction|].
  destruct (str_eqb (code_of c) code) eqn:E.
  - apply str_eqb_eq in E. exists [], c, cs.
    split; [reflexivity|]. split; [assumption | intros z []].
  - apply str_eqb_neq in E. destruct Hx as [-> | Hx]; [contradiction|].
    destruct IH as [pre [y [post [-> [Hy Hpre]]]]]; [eauto|].
    exists (c :: pre), y, post. split; [reflexivity|]. split; [assumption|].
    intros z [<- | Hz]; auto.
Qed.

(** C4.  In a sequence of courses that contains [x], looking up the
    code of [x] returns the first element whose code is that of [x]:
    the sequence splits into elements with another code, the element
    returned, and the rest.  Codes are compared as strings, code point
    by code point. *)
Theorem find_by_code_first (cs : list pyval) (x : pyval) :
  forallb is_course cs = true -> In x cs ->
  exists pre y post,
    cs = pre ++ y :: post
    /\ code_of y = code_of x
    /\ (forall z, In z pre -> code_of z <> code_of x)
    /\ next_course cs (code_of x) = Ok (Some y).
Proof.
  intros Hcs Hx.
  destruct (first_match cs (code_of x)) as [pre [y [post [E [Hy Hpre]]]]];
    [eauto|].
  exists pre, y, post. split; [assumption|]. split; [assumption|].
  split; [assumption|]. subst cs. now apply next_course_first.
Qed.

(** C5.  In a sequence of courses none of which has the code [code],
    looking up [code] finds nothing. *)
Theorem find_by_code_absent (cs : list pyval) (code : pystr) :
  forallb is_course cs = true ->
  (forall y, In y cs -> code_of y <> code) ->
  next_course cs code = Ok None.
Proof. apply next_course_none. Qed.

End ValueProperties.

Section JsonProperties.

Context {float : Type} {F : FloatOps float}.

Local Abbreviation pyval := (pyval float).

#[local] Arguments newline_indent : simpl never.

(** ** One step of each scanning function *)

Lemma JSONArray_S (fuel : nat) (s : pystr) :
  JSONArray (S fuel) s
  = match skip_ws s with
    | c :: r => if c =? 93 then Parsed (PyList []) r
                else array_values fuel [] (skip_ws s)
    | [] => Failed
    end.
Proof. reflexivity. Qed.

Lemma array_values_S (fuel : nat) (values : list pyval) (s : pystr) :
  array_values (S fuel) values s
  = match scan_once fuel s with
    | Parsed value r =>
        match skip_ws r with
        | d :: r1 =>
            if d =? 93 then Parsed (PyList (values ++ [value])) r1
            else if d =? 44
                 then array_values fuel (values ++ [value]) (skip_ws r1)
                 else Failed
        | [] => Failed
        end
    | Failed => Failed
    | OutOfFuel => OutOfFuel
    end.
Proof. reflexivity. Qed.

Lemma JSONObject_S (fuel : nat) (s : pystr) :
  JSONObject (S fuel) s
  = match skip_ws s with
    | c :: r =>
        if c =? 125 then Parsed (PyDict []) r
        else if c =? 34 then object_pairs fuel [] r
        else Failed
    | [] => Failed
    end.
Proof. reflexivity. Qed.

Lemma object_pairs_S (fuel : nat) (pairs : list (pystr * pyval)) (s : pystr) :
  object_pairs (S fuel) pairs s
  = match scanstring s with
    | None => Failed
    | Some (key, r) =>
        match skip_ws r with
        | c :: r1 =>
            if c =? 58 then
              match scan_once fuel (skip_ws r1) with
              | Parsed value r2 =>
                  match skip_ws r2 with
                  | d :: r3 =>
                      if d =? 125 then
                        Parsed (PyDict (dict_of_pairs (pairs ++ [(key, value)])))
                               r3
                      else if d =? 44 then
                        match skip_ws r3 with
                        | q :: r4 =>
                            if q =? 34
                            then object_pairs fuel (pairs ++ [(key, value)]) r4
                            else Failed
                        | [] => Failed
                        end
                      else Failed
                  | [] => Failed
                  end
              | Failed => Failed
              | OutOfFuel => OutOfFuel
              end
            else Failed
        | [] => Failed
        end
    end.
Proof. reflexivity. Qed.

Lemma scan_once_string (fuel : nat) (s : pystr) :
  scan_once (S fuel) (34 :: s)
  = match scanstring s with
    | Some (str, r) => Parsed (PyStr str) r
    | None => Failed
    end.
Proof. reflexivity. Qed.

Lemma scan_once_array (fuel : nat) (s : pystr) :
  scan_once (S fuel) (91 :: s) = JSONArray fuel s.
Proof. reflexivity. Qed.

Lemma scan_once_object (fuel : nat) (s : pystr) :
  scan_once (S fuel) (123 :: s) = JSONObject fuel s.
Proof. reflexivity. Qed.

(** ** The fuel of [json_loads] is never used up *)

Lemma scan_once_S (fuel : nat) (s : pystr) :
  scan_once fuel s
  = match fuel with
    | O => OutOfFuel
    | S fuel' =>
      match s with
      | [] => Failed
      | nextchar :: s1 =>
          if nextchar =? 34 then
            match scanstring s1 with
            | Some (str, r) => Parsed (PyStr str) r
            | None => Failed
            end
          else if nextchar =? 123 then JSONObject fuel' s1
          else if nextchar =? 91 then JSONArray fuel' s1
          else
            match strip_prefix (lit "null") s with
            | Some r => Parsed PyNone r
            | None =>
            match strip_prefix (lit "true") s with
            | Some r => Parsed (PyBool true) r
            | None =>
            match strip_prefix (lit "false") s with
            | Some r => Parsed (PyBool false) r
            | None =>
            match match_number s with
            | Some (integer, frac, exp, r) =>
                match frac, exp with
                | [], [] => Parsed (PyInt (parse_int integer)) r
                | _, _ =>
                    Parsed (PyFloat (parse_float (integer ++ frac ++ exp))) r
                end
            | None =>
            match strip_prefix (lit "NaN") s with
            | Some r => Parsed (PyFloat (parse_float (lit "NaN"))) r
            | None =>
            match strip_prefix (lit "Infinity") s with
            | Some r => Parsed (PyFloat (parse_float (lit "Infinity"))) r
            | None =>
            match strip_prefix (lit "-Infinity") s with
            | Some r => Parsed (PyFloat (parse_float (lit "-Infinity"))) r
            | None => Failed
            end end end end end end end
      end
    end.
Proof. destruct fuel; reflexivity. Qed.

(** what is known about the lengths of the texts in the context *)
Ltac length_facts :=
  repeat match goal with
  | E : skip_ws ?a = _ |- _ =>
      let H := fresh "L" in
      pose proof (skip_ws_length a) as H; rewrite E in H; revert E
  | E : scanstring _ = Some _ |- _ => apply scanstring_length in E
  | E : strip_prefix _ _ = Some _ |- _ => apply strip_prefix_length in E
  | E : match_number _ = Some _ |- _ => apply match_number_length in E
  end; intros;
  repeat match goal with
  | H : context [List.length (skip_ws ?a)] |- _ =>
      lazymatch goal with
      | _ : (List.length (skip_ws a) <= List.length a)%nat |- _ => fail
      | _ => pose proof (skip_ws_length a)
      end
  end.

Ltac split_matches_in H :=
  repeat match type of H with
  | context [if ?b then _ else _] => destruct b eqn:?
  | context [match ?x with _ => _ end] => destruct x eqn:?
  end.

Lemma scan_consumes (fuel : nat) :
  (forall s (v : pyval) r,
      scan_once fuel s = Parsed v r -> (List.length r < List.length s)%nat)
  /\ (forall s (v : pyval) r,
      JSONArray fuel s = Parsed v r -> (List.length r < List.length s)%nat)
  /\ (forall vs s (v : pyval) r,
      array_values fuel vs s = Parsed v r
      -> (List.length r < List.length s)%nat)
  /\ (forall s (v : pyval) r,
      JSONObject fuel s = Parsed v r -> (List.length r < List.length s)%nat)
  /\ (forall ps s (v : pyval) r,
      object_pairs fuel ps s = Parsed v r
      -> (List.length r < List.length s)%nat).
Proof.
  induction fuel as [|fuel [IHs [IHa [IHv [IHo IHp]]]]].
  - repeat split; intros; discriminate.
  - repeat split.
    + intros s v r H. rewrite scan_once_S in H. split_matches_in H;
        try discriminate; try (injection H as <- <-);
        try (apply IHo in H); try (apply IHa in H);
        length_facts; lengths.
    + intros s v r H. rewrite JSONArray_S in H. split_matches_in H;
        try discriminate; try (injection H as <- <-);
        try (apply IHv in H); length_facts; lengths.
    + intros vs s v r H. rewrite array_values_S in H.
      destruct (scan_once fuel s) as [v1 r1| |] eqn:E1; try discriminate.
      apply IHs in E1. split_matches_in H;
        try discriminate; try (injection H as <- <-);
        try (apply IHv in H); length_facts; lengths.
    + intros s v r H. rewrite JSONObject_S in H. split_matches_in H;
        try discriminate; try (injection H as <- <-);
        try (apply IHp in H); length_facts; lengths.
    + intros ps s v r H. rewrite object_pairs_S in H.
      destruct (scanstring s) as [[key r0]|] eqn:E0; [|discriminate].
      destruct (skip_ws r0) as [|c r1] eqn:E1; [discriminate|].
      destruct (c =? 58); [|discriminate].
      destruct (scan_once fuel (skip_ws r1)) as [v2 r2| |] eqn:E2;
        try discriminate.
      apply IHs in E2. pose proof (skip_ws_length r1).
      split_matches_in H;
        try discriminate; try (injection H as <- <-);
        try (apply IHp in H); length_facts; lengths.
Qed.

Lemma scan_fuel (fuel : nat) :
  (forall s, (3 * List.length s + 3 <= fuel)%nat ->
             scan_once fuel s <> OutOfFuel)
  /\ (forall s, (3 * List.length s + 5 <= fuel)%nat ->
                JSONArray fuel s <> OutOfFuel)
  /\ (forall vs s, (3 * List.length s + 4 <= fuel)%nat ->
                   array_values fuel vs s <> OutOfFuel)
  /\ (forall s, (3 * List.length s + 5 <= fuel)%nat ->
                JSONObject fuel s <> OutOfFuel)
  /\ (forall ps s, (3 * List.length s + 4 <= fuel)%nat ->
                   object_pairs fuel ps s <> OutOfFuel).
Proof.
  induction fuel as [|fuel [IHs [IHa [IHv [IHo IHp]]]]].
  - repeat split; intros; lia.
  - repeat split.
    + intros s Hf. rewrite scan_once_S.
      repeat match goal with
      | |- context [if ?b then _ else _] => destruct b eqn:?
      | |- context [match ?x with _ => _ end] => destruct x eqn:?
      end; try discriminate;
        [apply IHo | apply IHa]; lengths.
    + intros s Hf. rewrite JSONArray_S.
      pose proof (skip_ws_length s).
      destruct (skip_ws s) as [|c r] eqn:E; [discriminate|].
      destruct (c =? 93); [discriminate|]. apply IHv. lengths.
    + intros vs s Hf. rewrite array_values_S.
      destruct (scan_once fuel s) as [v1 r1| |] eqn:E1.
      * apply (proj1 (scan_consumes fuel)) in E1.
        destruct (skip_ws r1) as [|d r2] eqn:E2; [discriminate|].
        destruct (d =? 93); [discriminate|].
        destruct (d =? 44); [|discriminate].
        apply IHv. pose proof (skip_ws_length r2). length_facts. lengths.
      * discriminate.
      * exfalso. apply (IHs s); [lengths | assumption].
    + intros s Hf. rewrite JSONObject_S.
      pose proof (skip_ws_length s).
      destruct (skip_ws s) as [|c r] eqn:E; [discriminate|].
      destruct (c =? 125); [discriminate|].
      destruct (c =? 34); [|discriminate]. apply IHp. lengths.
    + intros ps s Hf. rewrite object_pairs_S.
      destruct (scanstring s) as [[key r0]|] eqn:E0; [|discriminate].
      destruct (skip_ws r0) as [|c r1] eqn:E1; [discriminate|].
      destruct (c =? 58); [|discriminate].
      pose proof (skip_ws_length r1). length_facts.
      destruct (scan_once fuel (skip_ws r1)) as [v2 r2| |] eqn:E2.
      * apply (proj1 (scan_consumes fuel)) in E2.
        destruct (skip_ws r2) as [|d r3] eqn:E3; [discriminate|].
        destruct (d =? 125); [discriminate|].
        destruct (d =? 44); [|discriminate].
        destruct (skip_ws r3) as [|q r4] eqn:E4; [discriminate|].
        destruct (q =? 34); [|discriminate].
        apply IHp. length_facts. lengths.
      * discriminate.
      * exfalso. apply (IHs (skip_ws r1)); [lengths | assumption].
Qed.

(** The fuel [json_loads] gives to [scan_once] is never used up. *)
Lemma scan_once_enough_fuel (s : pystr) :
  scan_once (enough_fuel s) (skip_ws s) <> (OutOfFuel : scanned pyval).
Proof.
  apply (proj1 (scan_fuel (enough_fuel s))). unfold enough_fuel.
  pose proof (skip_ws_length s). lengths.
Qed.

(** ** [scan_once] reads back what [iterencode] writes *)

Lemma iterencode_head (level : nat) (o : pyval) :
  storable o = true ->
  exists c t, iterencode level o = c :: t /\ value_start c.
Proof.
  unfold value_start.
  destruct o as [|[|]|z|f|s|[|x l]|[|kv d]]; simpl; intros H;
    try discriminate; eexists; eexists; (split; [reflexivity|]);
    simpl; tauto.
Qed.

Lemma skip_ws_iterencode (level : nat) (o : pyval) (t : pystr) :
  storable o = true ->
  skip_ws (iterencode level o ++ t) = iterencode level o ++ t.
Proof.
  intros H. destruct (iterencode_head level o H) as [c [u [-> Hc]]].
  now apply skip_ws_start.
Qed.

Lemma array_values_items (level : nat) (rest : pystr) (l : list pyval) :
  Forall reads_back l -> forallb storable l = true -> l <> [] ->
  forall values fuel,
    (list_sum (map (fun x => S (cost x)) l) <= fuel)%nat ->
    array_values fuel values
      (join (44 :: newline_indent (S level)) (map (iterencode (S level)) l)
       ++ newline_indent level ++ 93 :: rest)
    = Parsed (PyList (values ++ l)) rest.
Proof.
  induction l as [|x l IH]; intros HF Hs Hne values fuel Hfuel;
    [contradiction|].
  inversion HF as [|? ? Hx Hl]; subst.
  simpl forallb in Hs. apply andb_true_iff in Hs. destruct Hs as [Hsx Hsl].
  simpl map in Hfuel. simpl list_sum in Hfuel.
  destruct fuel as [|fuel]; [lia|].
  rewrite array_values_S.
  destruct l as [|y l].
  - simpl join. rewrite (Hx Hsx) by (simpl in Hfuel; lia).
    rewrite skip_ws_newline_indent. reflexivity.
  - change (join (44 :: newline_indent (S level))
                 (map (iterencode (S level)) (x :: y :: l)))
      with (iterencode (S level) x ++ (44 :: newline_indent (S level))
            ++ join (44 :: newline_indent (S level))
                    (map (iterencode (S level)) (y :: l))).
    rewrite <- !app_assoc. rewrite (Hx Hsx) by lia.
    change (skip_ws ((44 :: newline_indent (S level)) ++ ?t))
      with (44 :: newline_indent (S level) ++ t).
    cbv iota beta. change (44 =? 93) with false. change (44 =? 44) with true.
    cbv iota. rewrite skip_ws_newline_indent.
    rewrite skip_ws_text.
    + rewrite IH; try assumption; try discriminate; try lia.
      now rewrite <- app_assoc.
    + simpl forallb in Hsl. apply andb_true_iff in Hsl.
      destruct Hsl as [Hsy _].
      destruct (iterencode_head (S level) y Hsy) as [c [t [E Hc]]].
      destruct l as [|z l]; simpl; rewrite E; simpl; eauto.
Qed.

Lemma member_text (level : nat) (kv : pystr * pyval) (u : pystr) :
  (encode_basestring_ascii (fst kv) ++ lit ": "
   ++ iterencode (S level) (snd kv)) ++ u
  = 34 :: flat_map escape_char (fst kv)
       ++ 34 :: 58 :: 32 :: iterencode (S level) (snd kv) ++ u.
Proof.
  unfold encode_basestring_ascii. simpl. now rewrite <- !app_assoc.
Qed.

Lemma members_text (level : nat) (kv : pystr * pyval)
      (d : list (pystr * pyval)) (u : pystr) :
  let member := fun kv : pystr * pyval =>
    encode_basestring_ascii (fst kv) ++ lit ": "
    ++ iterencode (S level) (snd kv) in
  join (44 :: newline_indent (S level)) (map member (kv :: d)) ++ u
  = 34 :: flat_map escape_char (fst kv)
       ++ 34 :: 58 :: 32 :: iterencode (S level) (snd kv)
       ++ match d with
          | [] => u
          | _ :: _ =>
              44 :: newline_indent (S level)
              ++ join (44 :: newline_indent (S level)) (map member d) ++ u
          end.
Proof.
  intros member. destruct d as [|kv' d].
  - simpl join. apply member_text.
  - change (join (44 :: newline_indent (S level)) (map member (kv :: kv' :: d)))
      with (member kv ++ (44 :: newline_indent (S level))
            ++ join (44 :: newline_indent (S level)) (map member (kv' :: d))).
    rewrite <- !app_assoc. unfold member at 1. rewrite <- app_assoc.
    rewrite <- (app_assoc (lit ": ")). 
    rewrite (app_assoc (encode_basestring_ascii (fst kv))).
    rewrite (app_assoc (encode_basestring_ascii (fst kv) ++ lit ": ")).
    rewrite <- (app_assoc (encode_basestring_ascii (fst kv))).
    rewrite member_text. reflexivity.
Qed.

Lemma object_pairs_members (level : nat) (rest : pystr)
      (d : list (pystr * pyval)) :
  let member := fun kv : pystr * pyval =>
    encode_basestring_ascii (fst kv) ++ lit ": "
    ++ iterencode (S level) (snd kv) in
  Forall (fun kv => reads_back (snd kv)) d ->
  forallb (fun kv => scalar_str (fst kv) && storable (snd kv)) d = true ->
  d <> [] ->
  forall pairs fuel,
    (list_sum (map (fun kv => S (cost (snd kv))) d) <= fuel)%nat ->
    object_pairs fuel pairs
      (tl (join (44 :: newline_indent (S level)) (map member d)
           ++ newline_indent level ++ 125 :: rest))
    = Parsed (PyDict (dict_of_pairs (pairs ++ d))) rest.
Proof.
  intros member.
  induction d as [|kv d IH]; intros HF Hs Hne pairs fuel Hfuel;
    [contradiction|].
  inversion HF as [|? ? Hx Hl]; subst.
  simpl forallb in Hs. apply andb_true_iff in Hs. destruct Hs as [Hskv Hsl].
  apply andb_true_iff in Hskv. destruct Hskv as [Hsk Hsv].
  simpl map in Hfuel. simpl list_sum in Hfuel.
  destruct fuel as [|fuel]; [lia|].
  rewrite object_pairs_S. subst member. rewrite members_text.
  change (tl (34 :: ?x)) with x.
  rewrite scanstring_encoded by assumption.
  change (skip_ws (58 :: ?r)) with (58 :: r). cbv iota beta.
  change (58 =? 58) with true. cbv iota.
  change (skip_ws (32 :: ?r)) with (skip_ws r).
  rewrite skip_ws_iterencode by assumption.
  rewrite (Hx Hsv) by lia.
  destruct d as [|kv' d].
  - rewrite skip_ws_newline_indent. destruct kv. reflexivity.
  - change (skip_ws (44 :: ?r)) with (44 :: r). cbv iota beta.
    change (44 =? 125) with false. change (44 =? 44) with true. cbv iota.
    rewrite skip_ws_newline_indent.
    rewrite members_text.
    change (skip_ws (34 :: ?r)) with (34 :: r). cbv iota beta.
    change (34 =? 34) with true. cbv iota.
    specialize (IH Hl Hsl ltac:(discriminate) (pairs ++ [kv]) fuel
                   ltac:(lia)).
    rewrite members_text in IH.
    change (tl (34 :: ?x)) with x in IH.
    destruct kv. simpl fst. simpl snd. rewrite IH.
    now rewrite <- app_assoc.
Qed.

(** The text [iterencode] writes for a value, followed by anything, is
    scanned back to this value and leaves what followed. *)
Lemma scan_once_iterencode (o : pyval) : reads_back o.
Proof.
  induction o as [|b|z|f|s|l IH|d IH] using pyval_induction;
    intros Hs level rest fuel Hfuel; try discriminate;
    simpl cost in Hfuel; (destruct fuel as [|fuel]; [lia|]).
  - reflexivity.
  - destruct b; reflexivity.
  - simpl iterencode. unfold encode_basestring_ascii. simpl app.
    rewrite scan_once_string, <- app_assoc. simpl app.
    now rewrite scanstring_encoded.
  - destruct fuel as [|fuel]; [lia|].
    destruct l as [|x l]; [reflexivity|].
    change (iterencode level (PyList (x :: l)))
      with ([91] ++ newline_indent (S level)
            ++ join (44 :: newline_indent (S level))
                    (map (iterencode (S level)) (x :: l))
            ++ newline_indent level ++ [93]).
    change (([91] ++ ?u) ++ ?r) with (91 :: (u ++ r)).
    rewrite <- !app_assoc.
    rewrite scan_once_array, JSONArray_S, skip_ws_newline_indent.
    simpl in Hs. apply andb_true_iff in Hs. destruct Hs as [Hsx Hsl].
    assert (Hs : forallb storable (x :: l) = true)
      by (simpl; now rewrite Hsx, Hsl).
    assert (Hhead : exists c t,
               join (44 :: newline_indent (S level))
                    (map (iterencode (S level)) (x :: l)) = c :: t
               /\ value_start c).
    { destruct (iterencode_head (S level) x Hsx) as [c [t [E Hc]]].
      destruct l as [|z l]; simpl; rewrite E; simpl; eauto. }
    rewrite skip_ws_text by assumption.
    pose proof (array_values_items level rest (x :: l) IH Hs
                  ltac:(discriminate) [] fuel ltac:(lia)) as HA.
    destruct Hhead as [c [t [E Hc]]].
    rewrite E in *. change ((c :: t) ++ ?u) with (c :: t ++ u).
    assert (Hc93 : (c =? 93) = false).
    { unfold value_start in Hc. simpl in Hc.
      destruct Hc as [<-|[<-|[<-|[<-|[<-|[<-|[]]]]]]]; reflexivity. }
    cbv iota beta. rewrite Hc93. exact HA.
  - destruct fuel as [|fuel]; [lia|].
    destruct d as [|kv d]; [reflexivity|].
    change (iterencode level (PyDict (kv :: d)))
      with ([123] ++ newline_indent (S level)
            ++ join (44 :: newline_indent (S level))
                    (map (fun kv => encode_basestring_ascii (fst kv)
                                    ++ lit ": "
                                    ++ iterencode (S level) (snd kv))
                         (kv :: d))
            ++ newline_indent level ++ [125]).
    change (([123] ++ ?u) ++ ?r) with (123 :: (u ++ r)).
    rewrite <- !app_assoc.
    rewrite scan_once_object, JSONObject_S, skip_ws_newline_indent.
    simpl in Hs. apply andb_true_iff in Hs. destruct Hs as [Hdist Hsd].
    pose proof (object_pairs_members level rest (kv :: d) IH Hsd
                  ltac:(discriminate) [] fuel ltac:(lia)) as HO.
    cbv zeta in HO. change ([] ++ kv :: d) with (kv :: d) in HO.
    rewrite (dict_of_pairs_distinct (kv :: d)) in HO by exact Hdist.
    rewrite members_text in *.
    change (tl (34 :: ?x)) with x in HO.
    change (skip_ws (34 :: ?r)) with (34 :: r). cbv iota beta.
    change (34 =? 125) with false. change (34 =? 34) with true. cbv iota.
    exact HO.
Qed.

(** ** The fuel of [json_loads] is enough for a written text *)

Lemma cost_length (o : pyval) :
  storable o = true ->
  forall level, (cost o + 1 <= 3 * List.length (iterencode level o))%nat.
Proof.
  induction o as [|b|z|f|s|l IH|d IH] using pyval_induction;
    intros Hs level; try discriminate.
  - simpl. lia.
  - destruct b; simpl; lia.
  - simpl iterencode. unfold encode_basestring_ascii.
    rewrite !length_app. simpl. lia.
  - destruct l as [|x l]; [simpl; lia|].
    change (iterencode level (PyList (x :: l)))
      with ([91] ++ newline_indent (S level)
            ++ join (44 :: newline_indent (S level))
                    (map (iterencode (S level)) (x :: l))
            ++ newline_indent level ++ [93]).
    rewrite !length_app.
    pose proof (length_join (44 :: newline_indent (S level))
                  (map (iterencode (S level)) (x :: l))) as HJ.
    assert (HS : (list_sum (map (fun x => S (cost x)) (x :: l))
                  <= 3 * list_sum (map (@List.length char)
                                   (map (iterencode (S level)) (x :: l))))%nat).
    { change (forallb storable (x :: l) = true) in Hs. revert IH Hs. generalize (x :: l) as l'.
      induction l' as [|y l' IHl]; intros HF Hs; [apply le_n|].
      inversion HF as [|? ? Hy Hl']; subst.
      simpl forallb in Hs. apply andb_true_iff in Hs. destruct Hs as [Hsy Hsl].
      specialize (IHl Hl' Hsl). specialize (Hy Hsy (S level)).
      rewrite !map_cons, !list_sum_cons. unfold pystr in *. lia. }
    change (cost (PyList (x :: l)))
      with (2 + list_sum (map (fun x => S (cost x)) (x :: l)))%nat.
    change (List.length [91]) with 1%nat.
    change (List.length [93]) with 1%nat. unfold pystr in *. lia.
  - destruct d as [|kv d]; [simpl; lia|].
    change (iterencode level (PyDict (kv :: d)))
      with ([123] ++ newline_indent (S level)
            ++ join (44 :: newline_indent (S level))
                    (map (fun kv => encode_basestring_ascii (fst kv)
                                    ++ lit ": "
                                    ++ iterencode (S level) (snd kv))
                         (kv :: d))
            ++ newline_indent level ++ [125]).
    rewrite !length_app.
    pose proof (length_join (44 :: newline_indent (S level))
                  (map (fun kv => encode_basestring_ascii (fst kv)
                                  ++ lit ": "
                                  ++ iterencode (S level) (snd kv))
                       (kv :: d))) as HJ.
    assert (HS : (list_sum (map (fun kv => S (cost (snd kv))) (kv :: d))
                  <= 3 * list_sum
                         (map (@List.length char)
                            (map (fun kv => encode_basestring_ascii (fst kv)
                                            ++ lit ": "
                                            ++ iterencode (S level) (snd kv))
                                 (kv :: d))))%nat).
    { change (distinct (keys (kv :: d))
              && forallb (fun kv => scalar_str (fst kv) && storable (snd kv))
                         (kv :: d) = true) in Hs.
      apply andb_true_iff in Hs. destruct Hs as [_ Hs]. revert IH Hs. generalize (kv :: d) as d'.
      induction d' as [|y d' IHd]; intros HF Hs; [apply le_n|].
      inversion HF as [|? ? Hy Hd']; subst.
      simpl forallb in Hs. apply andb_true_iff in Hs. destruct Hs as [Hsy Hsd].
      apply andb_true_iff in Hsy. destruct Hsy as [_ Hsy].
      specialize (IHd Hd' Hsd). specialize (Hy Hsy (S level)).
      rewrite !map_cons, !list_sum_cons, !length_app.
      unfold pystr in *. lia. }
    change (cost (PyDict (kv :: d)))
      with (2 + list_sum (map (fun kv => S (cost (snd kv))) (kv :: d)))%nat.
    change (List.length [123]) with 1%nat.
    change (List.length [125]) with 1%nat. unfold pystr in *. lia.
Qed.

(** [json.loads] of the text [json.dump] writes is the value written. *)
Lemma json_loads_dumps (o : pyval) :
  storable o = true -> json_loads (json_dumps o) = Ok o.
Proof.
  intros Hs. unfold json_loads, json_dumps.
  pose proof (cost_length o Hs 0%nat) as Hc.
  pose proof (scan_once_iterencode o Hs 0%nat []
                (enough_fuel (iterencode 0 o))) as HR.
  rewrite app_nil_r in HR.
  destruct (iterencode_head 0 o Hs) as [c [t [E Hv]]].
  assert (HB : strip_prefix [65279] (iterencode 0 o) = None).
  { rewrite E. unfold value_start in Hv. simpl in Hv.
    destruct Hv as [<-|[<-|[<-|[<-|[<-|[<-|[]]]]]]]; reflexivity. }
  rewrite HB.
  assert (HW : skip_ws (iterencode 0 o) = iterencode 0 o).
  { rewrite E. now apply skip_ws_start. }
  rewrite HW, HR; [reflexivity|].
  unfold enough_fuel. lia.
Qed.

(** ** Storage *)

Lemma load_courses_world (w : world) : snd (load_courses w) = w.
Proof. unfold load_courses. now destruct (file w). Qed.

Lemma load_courses_pair (w : world) :
  load_courses w = (fst (load_courses w), w).
Proof.
  rewrite <- (load_courses_world w) at 3. now destruct (load_courses w).
Qed.

Lemma load_courses_dumped (o : pyval) (fl : list (pystr * pystr)) :
  storable o = true ->
  load_courses (mkWorld (Some (json_dumps o)) fl)
  = (Ok o, mkWorld (Some (json_dumps o)) fl).
Proof.
  intros H. unfold load_courses. simpl. now rewrite json_loads_dumps.
Qed.

Lemma save_courses_list (w : world) (cs : list pyval) (c : pyval) :
  fst (load_courses w) = Ok (PyList cs) ->
  save_courses c w
  = (Ok tt, mkWorld (Some (json_dumps (PyList (cs ++ [c])))) (flashes w)).
Proof.
  intros H. unfold save_courses, bind.
  rewrite load_courses_pair, H. reflexivity.
Qed.

Lemma json_loads_error (text : pystr) (e : exn) :
  json_loads text = Raise e -> e = JSONDecodeError.
Proof.
  unfold json_loads. intros H.
  destruct (strip_prefix [65279] text); [congruence|].
  destruct (scan_once _ _) as [o r| |]; try congruence.
  destruct (skip_ws r); congruence.
Qed.

(** C3.  When the stored sequence is [cs] and [c] is saved, the next
    load yields [cs] with [c] appended at the end.  The loaded records
    are equal to the stored ones, so each field of each record holds the
    same string as before.  It holds for all values made of strings of
    Unicode scalar values, lists and dicts, hence for every sequence of
    course records and every course record built from a form. *)
Theorem save_then_load (w : world) (cs : list pyval) (c : pyval) :
  fst (load_courses w) = Ok (PyList cs) ->
  storable (PyList cs) = true ->
  storable c = true ->
  exists w',
    save_courses c w = (Ok tt, w')
    /\ load_courses w' = (Ok (PyList (cs ++ [c])), w')
    /\ flashes w' = flashes w.
Proof.
  intros Hload Hcs Hc. eexists. split; [|split].
  - exact (save_courses_list w cs c Hload).
  - apply load_courses_dumped. now apply storable_snoc.
  - reflexivity.
Qed.

(** C8.  Loading does not change the world, so a second load with no
    write in between returns the same result as the first. *)
Theorem load_twice (w : world) :
  snd (load_courses w) = w
  /\ load_courses (snd (load_courses w)) = load_courses w.
Proof.
  split; [apply load_courses_world | now rewrite load_courses_world].
Qed.

(** C2, as the code has it.  Without a file the result is the empty
    list.  With a file the result is the result of [json.loads] on its
    text: the only error is the decoding error, and a decoded value is
    returned as it is, whatever its shape; in particular every value
    written by [json.dump] is read back, a list of courses or not. *)
Theorem load_courses_spec (fl : list (pystr * pystr)) :
  load_courses (mkWorld None fl) = (Ok (PyList []), mkWorld None fl)
  /\ (forall text,
        load_courses (mkWorld (Some text) fl)
        = (json_loads text, mkWorld (Some text) fl)
        /\ (forall e, json_loads text = Raise e -> e = JSONDecodeError))
  /\ (forall o, storable o = true ->
        load_courses (mkWorld (Some (json_dumps o)) fl)
        = (Ok o, mkWorld (Some (json_dumps o)) fl)).
Proof.
  split; [reflexivity|]. split.
  - intros text. split; [reflexivity | apply json_loads_error].
  - intros o. apply load_courses_dumped.
Qed.

(** ** The handler [add_course] *)

(** C6.  When the form carries the nine field names and some required
    field is empty, [add_course] leaves the file alone, flashes
    ['Missing fields: '] followed by the names of the empty required
    fields joined by [', '] under the category ['error'], and redirects
    to the form. *)
Theorem add_course_invalid (form : form_data) (w : world) (f : pystr) :
  (forall g, In g course_fields -> exists v, form_getitem form g = Ok v) ->
  In f required_fields -> form_getitem form f = Ok [] ->
  add_course POST form w
  = (Ok (redirect (lit "/add_course")),
     mkWorld (file w)
       (flashes w
        ++ [(lit "error",
             lit "Missing fields: "
             ++ join (lit ", ") (filter (blank form) required_fields))])).
Proof.
  intros Hall Hf Hv.
  destruct (form_dict_total form course_fields Hall) as [course E].
  pose proof (missing_fields_form form course E) as HM.
  unfold add_course, bind, lift. rewrite E, HM.
  destruct (filter (blank form) required_fields) as [|m ms] eqn:EF.
  - rewrite filter_nil in EF. specialize (EF f Hf).
    unfold blank in EF. rewrite Hv in EF. discriminate.
  - reflexivity.
Qed.

(** C9.  When the form lacks one of the nine field names, building the
    draft raises the lookup error of the first absent name; nothing is
    flashed, nothing is written and no response is produced. *)
Theorem add_course_missing_key (form : form_data) (w : world) (f : pystr) :
  In f course_fields -> ~ In f (map fst form) ->
  exists k,
    In k course_fields /\ ~ In k (map fst form)
    /\ add_course POST form w = (Raise (BadRequestKeyError k), w).
Proof.
  intros Hf Hout.
  destruct (form_dict_raise form course_fields f Hf Hout)
    as [k [Hk [Hko Hraise]]].
  exists k. split; [assumption|]. split; [assumption|].
  unfold add_course, bind, lift. now rewrite Hraise.
Qed.

(** C10, as the code has it.  When a required field holds a string of
    white space only and every other required field is non-empty, the
    submission is accepted: nothing is missing, the record is appended
    to the stored sequence with the white space kept as it was, and the
    response redirects to the catalog. *)
Theorem add_course_whitespace (form : form_data) (w : world)
        (cs : list pyval) (f v : pystr) :
  (forall g, In g course_fields ->
             exists u, form_getitem form g = Ok u /\ scalar_str u = true) ->
  In f required_fields ->
  form_getitem form f = Ok v -> whitespace_only v = true ->
  (forall g, In g required_fields -> g <> f -> blank form g = false) ->
  fst (load_courses w) = Ok (PyList cs) ->
  storable (PyList cs) = true ->
  exists course w',
    form_dict course_fields form = Ok course
    /\ missing_fields course = []
    /\ add_course POST form w = (Ok (redirect (lit "/catalog")), w')
    /\ load_courses w' = (Ok (PyList (cs ++ [course_dict course])), w')
    /\ getitem (course_dict course : pyval) f = Ok (PyStr v).
Proof.
  intros Hall Hf Hv Hws Hothers Hload Hcs.
  assert (Hall' : forall g, In g course_fields ->
                            exists u, form_getitem form g = Ok u).
  { intros g Hg. destruct (Hall g Hg) as [u [Hu _]]. eauto. }
  destruct (form_dict_total form course_fields Hall') as [course E].
  pose proof (missing_fields_form form course E) as HM.
  assert (Hnone : missing_fields course = []).
  { rewrite HM. apply filter_nil. intros g Hg.
    destruct (str_eqb g f) eqn:Egf.
    - apply str_eqb_eq in Egf. subst g. unfold blank. rewrite Hv.
      apply whitespace_only_not_empty in Hws. now destruct v.
    - apply str_eqb_neq in Egf. now apply Hothers. }
  destruct (form_dict_fields _ _ _ E) as [Hcourse _].
  set (vals := fun g => match form_getitem form g with
                        | Ok u => u
                        | Raise _ => []
                        end) in Hcourse.
  assert (Hst : storable (course_dict course : pyval) = true).
  { rewrite Hcourse. apply course_dict_storable. intros g Hg. unfold vals.
    destruct (Hall g Hg) as [u [-> Hu]]. exact Hu. }
  exists course.
  exists (mkWorld (Some (json_dumps (PyList (cs ++ [course_dict course]))))
                  (flashes w
                   ++ [(lit "success",
                        lit "Course '" ++ vals (lit "code")
                        ++ lit "' added successfully!")])).
  split; [assumption|]. split; [assumption|]. split; [|split].
  - unfold add_course, bind, lift. rewrite E, Hnone.
    rewrite (save_courses_list w cs (course_dict course) Hload).
    rewrite Hcourse. reflexivity.
  - apply load_courses_dumped. now apply storable_snoc.
  - rewrite Hcourse. unfold vals.
    assert (Hfv : vals f = v) by (unfold vals; now rewrite Hv).
    fold vals. rewrite <- Hfv. clear - Hf. simpl in Hf.
    destruct Hf as [<-|[<-|[<-|[<-|[<-|[<-|[<-|[<-|[]]]]]]]]]; reflexivity.
Qed.

(** ** The handler [course_details] *)

Lemma truthy_course (o : pyval) : is_course o = true -> truthy o = true.
Proof.
  intros H. destruct (is_course_code o H) as [d [-> [Hd _]]].
  now destruct d.
Qed.

(** C7.  Over a catalog of courses, a code that no course has makes
    [course_details] flash ["No course found with code '<code>'."]
    under the category ['error'] and redirect to the catalog; a code
    that some course has makes it render the detail template with the
    first such course, and nothing is flashed. *)
Theorem course_details_spec (w : world) (cs : list pyval) (code : pystr) :
  fst (load_courses w) = Ok (PyList cs) ->
  forallb is_course cs = true ->
  ((forall y, In y cs -> code_of y <> code) ->
   course_details code w
   = (Ok (redirect (lit "/catalog")),
      mkWorld (file w)
        (flashes w
         ++ [(lit "error",
              lit "No course found with code '" ++ code ++ lit "'.")])))
  /\ (forall pre y post,
        cs = pre ++ y :: post -> code_of y = code ->
        (forall z, In z pre -> code_of z <> code) ->
        course_details code w
        = (Ok (render_template (lit "course_details.html")
                               [(lit "course", y)]), w)).
Proof.
  intros Hload Hcs. split.
  - intros Hno. unfold course_details, bind, lift.
    rewrite load_courses_pair, Hload. simpl iter. cbv beta iota.
    now rewrite (next_course_none cs code Hcs Hno).
  - intros pre y post E Hy Hpre. subst cs.
    unfold course_details, bind, lift.
    rewrite load_courses_pair, Hload. simpl iter. cbv beta iota.
    rewrite (next_course_first pre post y code Hcs Hy Hpre).
    assert (Hyc : is_course y = true).
    { rewrite forallb_app in Hcs. apply andb_true_iff in Hcs.
      destruct Hcs as [_ Hcs]. simpl in Hcs.
      apply andb_true_iff in Hcs. tauto. }
    now rewrite (truthy_course y Hyc), (getitem_code y Hyc).
Qed.

End JsonProperties.

(** * Further properties *)

(** ** The written text is ASCII *)

Lemma hex_digit_plain (d : N) : d < 16 -> plain_ascii (hex_digit d) = true.
Proof.
  intros Hd.
  exact (forall_below (fun d => plain_ascii (hex_digit d)) 16 eq_refl d Hd).
Qed.

Lemma u_escape_plain (n : N) : forallb plain_ascii (u_escape n) = true.
Proof.
  unfold u_escape. cbn [forallb].
  rewrite !hex_digit_plain by (apply N.mod_upper_bound; discriminate).
  reflexivity.
Qed.

Lemma escape_char_plain (c : char) :
  forallb plain_ascii (escape_char c) = true.
Proof.
  unfold escape_char.
  repeat match goal with
  | |- context [if ?b then _ else _] => destruct b eqn:?
  end; try reflexivity.
  - cbn [forallb]. unfold plain_ascii.
    match goal with H : _ && _ = true |- _ => rewrite H end.
    now rewrite orb_true_r.
  - apply u_escape_plain.
  - rewrite forallb_app, !u_escape_plain. reflexivity.
Qed.

Lemma forallb_flat_map {A B} (p : B -> bool) (f : A -> list B) (l : list A) :
  (forall x, forallb p (f x) = true) -> forallb p (flat_map f l) = true.
Proof.
  intros H. induction l as [|x l IH]; [reflexivity|].
  simpl. now rewrite forallb_app, H, IH.
Qed.

Lemma encode_basestring_ascii_plain (s : pystr) :
  forallb plain_ascii (encode_basestring_ascii s) = true.
Proof.
  unfold encode_basestring_ascii. rewrite !forallb_app.
  rewrite (forallb_flat_map _ _ _ escape_char_plain). reflexivity.
Qed.

Lemma string_of_uint_plain (d : Decimal.uint) :
  forallb plain_ascii (lit (NilEmpty.string_of_uint d)) = true.
Proof. induction d; simpl; try reflexivity; exact IHd. Qed.

Lemma string_of_uint_zero_plain (d : Decimal.uint) :
  forallb plain_ascii (lit (NilZero.string_of_uint d)) = true.
Proof.
  destruct d; try reflexivity;
    match goal with
    | |- forallb _ (lit (NilZero.string_of_uint ?u)) = true =>
        exact (string_of_uint_plain u)
    end.
Qed.

Lemma intstr_plain (z : Z) : forallb plain_ascii (intstr z) = true.
Proof.
  unfold intstr, NilZero.string_of_int.
  destruct (Z.to_int z) as [d|d].
  - apply string_of_uint_zero_plain.
  - change (forallb plain_ascii (45 :: lit (NilZero.string_of_uint d)) = true).
    cbn [forallb]. now rewrite string_of_uint_zero_plain.
Qed.

Lemma newline_indent_plain (level : nat) :
  forallb plain_ascii (newline_indent level) = true.
Proof.
  unfold newline_indent. cbn [forallb].
  change (plain_ascii 10) with true. cbn [andb].
  induction (4 * level)%nat as [|n IH]; [reflexivity | exact IH].
Qed.

Lemma join_plain (sep : pystr) (l : list pystr) :
  forallb plain_ascii sep = true ->
  Forall (fun x => forallb plain_ascii x = true) l ->
  forallb plain_ascii (join sep l) = true.
Proof.
  intros Hsep H. induction H as [|x l Hx Hl IH]; [reflexivity|].
  destruct l as [|y l]; [exact Hx|].
  change (join sep (x :: y :: l)) with (x ++ sep ++ join sep (y :: l)).
  now rewrite !forallb_app, Hx, Hsep, IH.
Qed.

Section AsciiProperties.

Context {float : Type} {F : FloatOps float}.

Local Abbreviation pyval := (pyval float).

Lemma iterencode_plain (o : pyval) :
  float_free o = true ->
  forall level, forallb plain_ascii (iterencode level o) = true.
Proof.
  induction o as [|b|z|f|s|l IH|d IH] using pyval_induction;
    intros Hf level; try discriminate.
  - reflexivity.
  - now destruct b.
  - apply intstr_plain.
  - apply encode_basestring_ascii_plain.
  - destruct l as [|x l]; [reflexivity|].
    change (iterencode level (PyList (x :: l)))
      with ([91] ++ newline_indent (S level)
            ++ join (44 :: newline_indent (S level))
                    (map (iterencode (S level)) (x :: l))
            ++ newline_indent level ++ [93]).
    rewrite !forallb_app, !newline_indent_plain, join_plain;
      [reflexivity | cbn [forallb]; now rewrite newline_indent_plain |].
    change (forallb float_free (x :: l) = true) in Hf.
    revert IH Hf. generalize (x :: l) as l'.
    induction l' as [|y l' IHl]; intros HF Hf; [constructor|].
    inversion HF as [|? ? Hy Hl']; subst.
    simpl forallb in Hf. apply andb_true_iff in Hf. destruct Hf as [Hfy Hfl].
    constructor; [now apply Hy | now apply IHl].
  - destruct d as [|kv d]; [reflexivity|].
    change (iterencode level (PyDict (kv :: d)))
      with ([123] ++ newline_indent (S level)
            ++ join (44 :: newline_indent (S level))
                    (map (fun kv => encode_basestring_ascii (fst kv)
                                    ++ lit ": "
                                    ++ iterencode (S level) (snd kv))
                         (kv :: d))
            ++ newline_indent level ++ [125]).
    rewrite !forallb_app, !newline_indent_plain, join_plain;
      [reflexivity | cbn [forallb]; now rewrite newline_indent_plain |].
    change (forallb (fun kv => float_free (snd kv)) (kv :: d) = true) in Hf.
    revert IH Hf. generalize (kv :: d) as d'.
    induction d' as [|y d' IHd]; intros HF Hf; [constructor|].
    inversion HF as [|? ? Hy Hd']; subst.
    simpl forallb in Hf. apply andb_true_iff in Hf. destruct Hf as [Hfy Hfd].
    constructor; [|now apply IHd].
    rewrite !forallb_app, encode_basestring_ascii_plain, (Hy Hfy).
    reflexivity.
Qed.

(** X10.  [save_courses] writes ASCII only: when the stored list and the
    new record hold no floating point number, every character of the
    file written is a line feed or a printable ASCII character, whatever
    the characters of the strings. *)
Theorem save_courses_ascii (w : world) (cs : list pyval) (c : pyval) :
  fst (load_courses w) = Ok (PyList cs) ->
  forallb float_free cs = true -> float_free c = true ->
  exists text,
    file (snd (save_courses c w)) = Some text
    /\ forallb plain_ascii text = true.
Proof.
  intros Hload Hcs Hc. rewrite (save_courses_list w cs c Hload).
  eexists. split; [reflexivity|].
  apply iterencode_plain. simpl. rewrite forallb_app, Hcs. simpl.
  now rewrite Hc.
Qed.

End AsciiProperties.

(** ** Lookup over any list *)

Section LookupProperties.

Context {float : Type}.

Local Abbreviation pyval := (pyval float).

Lemma next_course_skip (pre rest : list pyval) (code : pystr) :
  (forall z, In z pre ->
     exists v, getitem z (lit "code") = Ok v /\ eq_str v code = false) ->
  next_course (pre ++ rest) code = next_course rest code.
Proof.
  induction pre as [|z pre IH]; intros H; [reflexivity|].
  simpl. destruct (H z (or_introl eq_refl)) as [v [-> ->]].
  apply IH. intros z' Hz'. apply H. now right.
Qed.

(** X11.  The lookup stops at the first match: when the elements before
    [y] are dicts whose code is another string or not a string at all,
    and the code of [y] is the requested string, [y] is returned whatever
    follows it, well formed or not. *)
Theorem lookup_stops_at_match (pre post : list pyval) (y : pyval)
        (code : pystr) :
  (forall z, In z pre ->
     exists v, getitem z (lit "code") = Ok v /\ eq_str v code = false) ->
  getitem y (lit "code") = Ok (PyStr code) ->
  next_course (pre ++ y :: post) code = Ok (Some y).
Proof.
  intros Hpre Hy. rewrite (next_course_skip pre (y :: post) code Hpre).
  simpl. rewrite Hy. simpl. now rewrite str_eqb_refl.
Qed.

(** X12.  An element without a code that comes before any match makes
    the lookup raise, matches further on notwithstanding: [KeyError]
    for a dict without the key ['code'], [TypeError] for a value that is
    not a dict. *)
Theorem lookup_raises (pre post : list pyval) (bad : pyval) (code : pystr)
        (e : exn) :
  (forall z, In z pre ->
     exists v, getitem z (lit "code") = Ok v /\ eq_str v code = false) ->
  getitem bad (lit "code") = Raise e ->
  next_course (pre ++ bad :: post) code = Raise e
  /\ e = match bad with
         | PyDict _ => KeyError (lit "code")
         | _ => TypeError
         end.
Proof.
  intros Hpre Hbad. split.
  - rewrite (next_course_skip pre (bad :: post) code Hpre).
    simpl. now rewrite Hbad.
  - destruct bad as [|b|z|f|s|l|d]; simpl in Hbad; try congruence.
    destruct (dict_get (lit "code") d); congruence.
Qed.

Lemma eq_str_true (v : pyval) (code : pystr) :
  eq_str v code = true -> v = PyStr code.
Proof.
  destruct v as [|b|z|f|s|l|d]; simpl; try discriminate.
  intros H. apply str_eqb_eq in H. now subst.
Qed.

Lemma next_course_some (items : list pyval) (code : pystr) (c : pyval) :
  next_course items code = Ok (Some c) ->
  In c items /\ getitem c (lit "code") = Ok (PyStr code).
Proof.
  induction items as [|z items IH]; simpl; intros H; [discriminate|].
  destruct (getitem z (lit "code")) as [v|e] eqn:E; [|discriminate].
  destruct (eq_str v code) eqn:Ev.
  - injection H as <-. apply eq_str_true in Ev. subst v.
    split; [now left | exact E].
  - destruct (IH H) as [Hin Hc]. split; [now right | exact Hc].
Qed.

(** X13.  The lookup finds nothing exactly when every element is a dict
    with the key ['code'] whose value is not the requested string. *)
Theorem lookup_none (items : list pyval) (code : pystr) :
  next_course items code = Ok None
  <-> forall z, In z items ->
        exists v, getitem z (lit "code") = Ok v /\ eq_str v code = false.
Proof.
  induction items as [|z items IH]; simpl.
  - split; [intros _ z [] | reflexivity].
  - destruct (getitem z (lit "code")) as [v|e] eqn:E.
    + destruct (eq_str v code) eqn:Ev.
      * split; [discriminate|]. intros H.
        destruct (H z (or_introl eq_refl)) as [v' [Hv' He]]. congruence.
      * rewrite IH. split.
        -- intros H z' [<- | Hz']; [eauto | auto].
        -- intros H z' Hz'. apply H. now right.
    + split; [discriminate|]. intros H.
      destruct (H z (or_introl eq_refl)) as [v' [Hv' _]]. congruence.
Qed.

End LookupProperties.

(** ** Forms *)

Lemma form_dict_ext (form1 form2 : form_data) (fields : list pystr) :
  (forall f, In f fields -> form_getitem form1 f = form_getitem form2 f) ->
  form_dict fields form1 = form_dict fields form2.
Proof.
  induction fields as [|f fields IH]; intros H; [reflexivity|].
  simpl. rewrite (H f (or_introl eq_refl)), IH; [reflexivity|].
  intros g Hg. apply H. now right.
Qed.

Lemma form_dict_course (form : form_data) (course : list (pystr * pystr)) :
  form_dict course_fields form = Ok course -> course = course_of_form form.
Proof. intros H. now destruct (form_dict_fields _ _ _ H). Qed.

Lemma form_complete (form : form_data) :
  (forall g, In g course_fields -> exists u, form_getitem form g = Ok u) ->
  form_dict course_fields form = Ok (course_of_form form).
Proof.
  intros H. destruct (form_dict_total form course_fields H) as [course E].
  now rewrite <- (form_dict_course form course E).
Qed.

Lemma missing_fields_none (form : form_data) :
  (forall g, In g course_fields -> exists u, form_getitem form g = Ok u) ->
  (forall g, In g required_fields -> blank form g = false) ->
  missing_fields (course_of_form form) = [].
Proof.
  intros Hall Hreq.
  rewrite (missing_fields_form form _ (form_complete form Hall)).
  now apply filter_nil.
Qed.

Lemma find_append {A} (p : A -> bool) (l r : list A) :
  find p (l ++ r)
  = match find p l with
    | Some x => Some x
    | None => find p r
    end.
Proof.
  induction l as [|a l IH]; [reflexivity|].
  simpl. now destruct (p a).
Qed.

Section HandlerProperties.

Context {float : Type} {F : FloatOps float}.

Local Abbreviation pyval := (pyval float).

(** ** [add_course] after validation *)

Lemma load_courses_file (w1 w2 : world) :
  file w1 = file w2 -> fst (load_courses w1) = fst (load_courses w2).
Proof. unfold load_courses. intros ->. now destruct (file w2). Qed.

Lemma load_courses_error (w : world) (e : exn) :
  fst (load_courses w) = Raise e -> e = JSONDecodeError.
Proof.
  unfold load_courses. destruct (file w) as [text|]; simpl; [|discriminate].
  apply json_loads_error.
Qed.

(** what a submission that passes validation does, by the state of the
    file *)
Lemma add_course_post (form : form_data) (w : world) :
  form_dict course_fields form = Ok (course_of_form form) ->
  missing_fields (course_of_form form) = [] ->
  add_course POST form w
  = match fst (load_courses w) with
    | Ok (PyList cs) =>
        (Ok (redirect (lit "/catalog")),
         mkWorld (Some (json_dumps
                          (PyList (cs ++ [course_dict (course_of_form form)]))))
                 (flashes w ++ [added_flash (form_value form (lit "code"))]))
    | Ok _ => (Raise AttributeError, w)
    | Raise e => (Raise e, w)
    end.
Proof.
  intros E Hnone. unfold add_course, bind, lift. rewrite E, Hnone.
  unfold save_courses, bind, lift. rewrite load_courses_pair.
  destruct (fst (load_courses w)) as [[| | | | |cs|]|e]; reflexivity.
Qed.

(** X1.  A submission with the nine field names whose required fields
    are all non-empty is saved: the file is rewritten with the stored
    list followed by the new record, ['Course '<code>' added
    successfully!'] is flashed under ['success'] and the response
    redirects to the catalog.  The record holds each field with the
    value submitted. *)
Theorem add_course_valid (form : form_data) (w : world) (cs : list pyval) :
  (forall g, In g course_fields -> exists u, form_getitem form g = Ok u) ->
  (forall g, In g required_fields -> blank form g = false) ->
  fst (load_courses w) = Ok (PyList cs) ->
  add_course POST form w
  = (Ok (redirect (lit "/catalog")),
     mkWorld (Some (json_dumps
                      (PyList (cs ++ [course_dict (course_of_form form)]))))
             (flashes w ++ [added_flash (form_value form (lit "code"))]))
  /\ forall g, In g course_fields ->
       getitem (course_dict (course_of_form form) : pyval) g
       = Ok (PyStr (form_value form g)).
Proof.
  intros Hall Hreq Hload. split.
  - rewrite (add_course_post form w (form_complete form Hall)
               (missing_fields_none form Hall Hreq)).
    now rewrite Hload.
  - intros g Hg. simpl in Hg.
    destruct Hg as [<-|[<-|[<-|[<-|[<-|[<-|[<-|[<-|[<-|[]]]]]]]]]];
      reflexivity.
Qed.

(** X2.  [add_course] reads the form through the nine field names only,
    and a repeated name through its first value: two forms that agree
    there are treated alike. *)
Theorem add_course_form_ext (method : http_method) (form1 form2 : form_data)
        (w : world) :
  (forall f, In f course_fields ->
             form_getitem form1 f = form_getitem form2 f) ->
  add_course (float := float) method form1 w = add_course method form2 w.
Proof.
  intros H. unfold add_course.
  now rewrite (form_dict_ext form1 form2 course_fields H).
Qed.

(** X3.  When the file does not hold a list, a submission that passes
    validation raises and the world is left as it was: the error of the
    decoder when the text is not JSON, [AttributeError] (no [append])
    when it is JSON of another kind.  Nothing is written and nothing is
    flashed. *)
Theorem add_course_bad_store (form : form_data) (w : world) :
  (forall g, In g course_fields -> exists u, form_getitem form g = Ok u) ->
  (forall g, In g required_fields -> blank form g = false) ->
  (forall cs, fst (load_courses w) <> Ok (PyList cs)) ->
  add_course POST form w
  = (Raise (match fst (load_courses w) with
            | Raise e => e
            | Ok _ => AttributeError
            end), w)
  /\ forall e, fst (load_courses w) = Raise e -> e = JSONDecodeError.
Proof.
  intros Hall Hreq Hbad. split.
  - rewrite (add_course_post form w (form_complete form Hall)
               (missing_fields_none form Hall Hreq)).
    destruct (fst (load_courses w)) as [[| | | | |cs|]|e]; try reflexivity.
    now elim (Hbad cs).
  - apply load_courses_error.
Qed.

(** ** The catalog under [add_course] *)

Lemma blank_form_value (form : form_data) (g u : pystr) :
  form_getitem form g = Ok u -> blank form g = empty (form_value form g).
Proof. unfold blank, form_value. now intros ->. Qed.

Lemma complete_course_of_form (form : form_data) :
  (forall g, In g course_fields -> exists u, form_getitem form g = Ok u) ->
  (forall g, In g required_fields -> blank form g = false) ->
  complete_course (course_dict (course_of_form form) : pyval) = true.
Proof.
  intros Hall Hreq.
  assert (H : forall g, In g required_fields ->
                        empty (form_value form g) = false).
  { intros g Hg. destruct (Hall g) as [u Hu].
    - change course_fields with (required_fields ++ [lit "description"]).
      apply in_or_app. now left.
    - rewrite <- (blank_form_value form g u Hu). now apply Hreq. }
  unfold complete_course, course_of_form, course_dict, course_fields.
  cbn [map fst snd forallb dict_get str_eqb lit list_ascii_of_string
       N_of_ascii N_of_digits N.eqb Pos.eqb andb N.add N.mul Pos.add Pos.mul].
  rewrite !H by (simpl; tauto). cbn [negb orb andb].
  now rewrite orb_true_r.
Qed.

Lemma forallb_snoc {A} (p : A -> bool) (l : list A) (x : A) :
  forallb p l = true -> p x = true -> forallb p (l ++ [x]) = true.
Proof. intros Hl Hx. rewrite forallb_app, Hl. simpl. now rewrite Hx. Qed.

(** X4.  Whatever the method and the form, [add_course] keeps the
    catalog well formed and only ever appends: when the file holds a
    list of complete courses (nine string fields, the required ones
    non-empty), it holds one afterwards, and the new list is the old one
    or the old one followed by one record. *)
Theorem add_course_keeps_catalog (method : http_method) (form : form_data)
        (w : world) (cs : list pyval) :
  fst (load_courses w) = Ok (PyList cs) ->
  storable (PyList cs) = true ->
  forallb complete_course cs = true ->
  (forall g, In g course_fields -> scalar_str (form_value form g) = true) ->
  exists cs',
    fst (load_courses (snd (add_course method form w))) = Ok (PyList cs')
    /\ storable (PyList cs') = true
    /\ forallb complete_course cs' = true
    /\ (cs' = cs \/ exists c, cs' = cs ++ [c]).
Proof.
  intros Hload Hst Hcc Hsc.
  assert (Hsame : forall w', file w' = file w ->
            exists cs',
              fst (load_courses w') = Ok (PyList cs')
              /\ storable (PyList cs') = true
              /\ forallb complete_course cs' = true
              /\ (cs' = cs \/ exists c, cs' = cs ++ [c])).
  { intros w' Hf. exists cs. rewrite (load_courses_file w' w Hf). auto. }
  destruct method; try (apply Hsame; reflexivity).
  destruct (form_dict course_fields form) as [course|e] eqn:E.
  - pose proof (form_dict_course form course E) as ->.
    destruct (form_dict_fields _ _ _ E) as [_ Hall].
    pose proof (missing_fields_form form _ E) as HM.
    destruct (missing_fields (course_of_form form)) as [|m ms] eqn:EM.
    + symmetry in HM. rewrite filter_nil in HM.
      rewrite (add_course_post form w E EM), Hload. cbn [snd].
      exists (cs ++ [course_dict (course_of_form form)]).
      assert (Hrec : storable (course_dict (course_of_form form) : pyval)
                     = true)
        by (apply (course_dict_storable (form_value form)); exact Hsc).
      split; [|split; [|split]].
      * rewrite load_courses_dumped; [reflexivity|].
        now apply storable_snoc.
      * now apply storable_snoc.
      * apply forallb_snoc; [assumption|].
        now apply complete_course_of_form.
      * right. eauto.
    + apply Hsame. unfold add_course, bind, lift. rewrite E, EM. reflexivity.
  - apply Hsame. unfold add_course, bind, lift. now rewrite E.
Qed.

(** ** [course_details] on any file *)

(** X5.  [course_details] never writes the file, and it flashes exactly
    when it answers with the redirect: then the one message is the
    not-found message of the requested code; when it renders or raises,
    nothing is flashed.  This holds for every file, well formed or
    not. *)
Theorem course_details_read_only (code : pystr) (w : world) :
  file (snd (course_details code w)) = file w
  /\ flashes (snd (course_details code w))
     = match fst (course_details code w) with
       | Ok (redirect _) => flashes w ++ [not_found_flash code]
       | _ => flashes w
       end.
Proof.
  unfold course_details, bind, lift. rewrite load_courses_pair.
  destruct (fst (load_courses w)) as [o|e]; [|split; reflexivity].
  destruct (iter o) as [items|e]; [|split; reflexivity].
  destruct (next_course items code) as [[c|]|e]; try (split; reflexivity).
  destruct (truthy c); [|split; reflexivity].
  destruct (getitem c (lit "code")); split; reflexivity.
Qed.

(** ** [course_catalog] *)

(** X6.  [course_catalog] leaves the world as it is.  It renders the
    loaded value when that is a list, an object or a string, raises
    [TypeError] (no [len]) when it is a number, a boolean or [null],
    and passes on the error of the decoder. *)
Theorem course_catalog_spec (w : world) :
  snd (course_catalog w) = w
  /\ fst (course_catalog w)
     = match fst (load_courses w) with
       | Ok (PyList _ as o) | Ok (PyDict _ as o) | Ok (PyStr _ as o) =>
           Ok (render_template (lit "course_catalog.html")
                               [(lit "courses", o)])
       | Ok _ => Raise TypeError
       | Raise e => Raise e
       end.
Proof.
  unfold course_catalog, bind, lift. rewrite load_courses_pair.
  destruct (fst (load_courses w)) as [[| | | | | |]|e]; split; reflexivity.
Qed.

(** ** [add_course] followed by a page *)

Lemma next_course_app (cs rest : list pyval) (code : pystr) :
  forallb is_course cs = true ->
  next_course (cs ++ rest) code
  = match find (fun y => str_eqb (code_of y) code) cs with
    | Some y => Ok (Some y)
    | None => next_course rest code
    end.
Proof.
  induction cs as [|c cs IH]; intros H; [reflexivity|].
  simpl in H. apply andb_true_iff in H. destruct H as [Hc Hcs].
  simpl. rewrite (getitem_code c Hc). simpl eq_str.
  destruct (str_eqb (code_of c) code); [reflexivity | now apply IH].
Qed.

Lemma find_course (cs : list pyval) (code : pystr) (y : pyval) :
  forallb is_course cs = true ->
  find (fun y => str_eqb (code_of y) code) cs = Some y ->
  is_course y = true.
Proof.
  intros H E. apply find_some in E. destruct E as [Hin _].
  rewrite forallb_forall in H. now apply H.
Qed.

Lemma is_course_of_form (form : form_data) :
  is_course (course_dict (course_of_form form) : pyval) = true.
Proof. reflexivity. Qed.

Lemma code_of_form (form : form_data) :
  code_of (course_dict (course_of_form form) : pyval)
  = form_value form (lit "code").
Proof. reflexivity. Qed.

(** the details page over a stored list of courses *)
Lemma course_details_stored (code : pystr) (w : world) (cs : list pyval) :
  fst (load_courses w) = Ok (PyList cs) ->
  forallb is_course cs = true ->
  fst (course_details code w)
  = match find (fun y => str_eqb (code_of y) code) cs with
    | Some y => Ok (render_template (lit "course_details.html")
                                    [(lit "course", y)])
    | None => Ok (redirect (lit "/catalog"))
    end.
Proof.
  intros Hload Hcs. unfold course_details, bind, lift.
  rewrite load_courses_pair, Hload. simpl iter. cbv beta iota.
  rewrite <- (app_nil_r cs) at 1. rewrite (next_course_app cs [] code Hcs).
  destruct (find _ cs) as [y|] eqn:E; [|reflexivity].
  pose proof (find_course cs code y Hcs E) as Hy.
  now rewrite (truthy_course y Hy), (getitem_code y Hy).
Qed.

(** the world after a submission that passes validation *)
Lemma add_course_world (form : form_data) (w : world) (cs : list pyval) :
  (forall g, In g course_fields -> exists u, form_getitem form g = Ok u) ->
  (forall g, In g required_fields -> blank form g = false) ->
  (forall g, In g course_fields -> scalar_str (form_value form g) = true) ->
  fst (load_courses w) = Ok (PyList cs) ->
  storable (PyList cs) = true ->
  fst (load_courses (snd (add_course POST form w)))
  = Ok (PyList (cs ++ [course_dict (course_of_form form)])).
Proof.
  intros Hall Hreq Hsc Hload Hst.
  rewrite (add_course_post form w (form_complete form Hall)
             (missing_fields_none form Hall Hreq)), Hload. cbn [snd].
  rewrite load_courses_dumped; [reflexivity|].
  apply storable_snoc; [assumption|].
  apply (course_dict_storable (form_value form)). exact Hsc.
Qed.

(** X7.  After a submission is saved, the details page of its code
    shows the first stored course that already had this code, if there
    is one, and the new record otherwise: a code that is taken is not
    refused, and the record saved under it cannot be reached. *)
Theorem add_then_details (form : form_data) (w : world) (cs : list pyval) :
  (forall g, In g course_fields -> exists u, form_getitem form g = Ok u) ->
  (forall g, In g required_fields -> blank form g = false) ->
  (forall g, In g course_fields -> scalar_str (form_value form g) = true) ->
  fst (load_courses w) = Ok (PyList cs) ->
  storable (PyList cs) = true ->
  forallb is_course cs = true ->
  fst (course_details (form_value form (lit "code"))
                      (snd (add_course POST form w)))
  = Ok (render_template (lit "course_details.html")
          [(lit "course",
            match find (fun y => str_eqb (code_of y)
                                         (form_value form (lit "code"))) cs with
            | Some y => y
            | None => course_dict (course_of_form form)
            end)]).
Proof.
  intros Hall Hreq Hsc Hload Hst Hcs.
  pose proof (add_course_world form w cs Hall Hreq Hsc Hload Hst) as Hw.
  rewrite (course_details_stored _ _ _ Hw).
  - rewrite find_append.
    destruct (find _ cs) as [y|]; [reflexivity|].
    simpl find. rewrite code_of_form, str_eqb_refl. reflexivity.
  - apply forallb_snoc; [assumption | apply is_course_of_form].
Qed.

(** X8.  Saving a submission does not change the details page of any
    other code, nor that of its own code when a stored course already
    had it. *)
Theorem add_keeps_details (form : form_data) (w : world) (cs : list pyval)
        (code : pystr) :
  (forall g, In g course_fields -> exists u, form_getitem form g = Ok u) ->
  (forall g, In g required_fields -> blank form g = false) ->
  (forall g, In g course_fields -> scalar_str (form_value form g) = true) ->
  fst (load_courses w) = Ok (PyList cs) ->
  storable (PyList cs) = true ->
  forallb is_course cs = true ->
  code <> form_value form (lit "code")
  \/ (exists y, In y cs /\ code_of y = code) ->
  fst (course_details code (snd (add_course POST form w)))
  = fst (course_details code w).
Proof.
  intros Hall Hreq Hsc Hload Hst Hcs Hcode.
  pose proof (add_course_world form w cs Hall Hreq Hsc Hload Hst) as Hw.
  rewrite (course_details_stored _ _ _ Hw),
          (course_details_stored _ _ _ Hload Hcs).
  - rewrite find_append.
    destruct (find _ cs) as [y|] eqn:E; [reflexivity|].
    simpl find. rewrite code_of_form.
    destruct (str_eqb (form_value form (lit "code")) code) eqn:Ec;
      [|reflexivity].
    apply str_eqb_eq in Ec. destruct Hcode as [Hne | [y [Hy Hyc]]].
    + now elim Hne.
    + pose proof (find_none _ _ E y Hy) as Hn. cbv beta in Hn.
      apply str_eqb_neq in Hn. contradiction.
  - apply forallb_snoc; [assumption | apply is_course_of_form].
Qed.

(** X9.  After a submission is saved, the catalog page lists the stored
    courses in their order, followed by the new record. *)
Theorem add_then_catalog (form : form_data) (w : world) (cs : list pyval) :
  (forall g, In g course_fields -> exists u, form_getitem form g = Ok u) ->
  (forall g, In g required_fields -> blank form g = false) ->
  (forall g, In g course_fields -> scalar_str (form_value form g) = true) ->
  fst (load_courses w) = Ok (PyList cs) ->
  storable (PyList cs) = true ->
  fst (course_catalog (snd (add_course POST form w)))
  = Ok (render_template (lit "course_catalog.html")
          [(lit "courses",
            PyList (cs ++ [course_dict (course_of_form form)]))]).
Proof.
  intros Hall Hreq Hsc Hload Hst.
  pose proof (add_course_world form w cs Hall Hreq Hsc Hload Hst) as Hw.
  unfold course_catalog, bind, lift. rewrite load_courses_pair, Hw.
  reflexivity.
Qed.

(** ** What the details page can show *)

(** X14.  Whatever the file holds, a page rendered by [course_details]
    is the details template over an element of the loaded value that is
    a dict whose code is exactly the requested string. *)
Theorem course_details_sound (code : pystr) (w : world) (template : pystr)
        (context : list (pystr * pyval)) :
  fst (course_details code w) = Ok (render_template template context) ->
  exists c o items,
    template = lit "course_details.html"
    /\ context = [(lit "course", c)]
    /\ fst (load_courses w) = Ok o /\ iter o = Ok items /\ In c items
    /\ getitem c (lit "code") = Ok (PyStr code).
Proof.
  unfold course_details, bind, lift. rewrite load_courses_pair.
  destruct (fst (load_courses w)) as [o|e]; [|discriminate].
  destruct (iter o) as [items|e] eqn:Ei; [|discriminate].
  destruct (next_course items code) as [[c|]|e] eqn:En; try discriminate.
  destruct (next_course_some items code c En) as [Hin Hc].
  destruct (truthy c); [|discriminate]. rewrite Hc. simpl.
  intros H. injection H as <- <-. exists c, o, items. auto 10.
Qed.

(** ** Two saves *)

(** X15.  Two saves in a row append in the order of the calls. *)
Theorem save_twice (w : world) (cs : list pyval) (c1 c2 : pyval) :
  fst (load_courses w) = Ok (PyList cs) ->
  storable (PyList cs) = true ->
  storable c1 = true -> storable c2 = true ->
  fst (load_courses (snd (save_courses c2 (snd (save_courses c1 w)))))
  = Ok (PyList (cs ++ [c1; c2])).
Proof.
  intros Hload Hcs H1 H2.
  rewrite (save_courses_list w cs c1 Hload). cbn [snd].
  pose proof (storable_snoc cs c1 Hcs H1) as Hs1.
  rewrite (save_courses_list _ (cs ++ [c1]) c2);
    [|now rewrite load_courses_dumped].
  cbn [snd]. rewrite load_courses_dumped.
  - now rewrite <- app_assoc.
  - now apply storable_snoc.
Qed.

End HandlerProperties.

(** * Examples *)

(** texts that are not JSON *)
Example malformed_json :
  map (json_loads (float := pystr))
      [[]; lit "["; lit "[1,]"; lit "[1 2]"; lit "{,}"; lit "nul"; lit "01";
       lit "1."; lit "[] []"; lit "'a'"]
  = repeat (Raise JSONDecodeError) 10.
Proof. vm_compute. reflexivity. Qed.

(** numbers, constants and white space *)
Example json_values :
  json_loads (float := pystr) (lit " [ 1 , -20, 2.5e3, null, true, false, [ ], { } ] ")
  = Ok (PyList [PyInt 1; PyInt (-20); PyFloat (lit "2.5e3"); PyNone;
                PyBool true; PyBool false; PyList []; PyDict []]).
Proof. vm_compute. reflexivity. Qed.

(** a key given twice keeps its first position and its last value *)
Example json_duplicate_key :
  json_loads (float := pystr)
    ([123; 34; 97; 34; 58; 49; 44; 34; 98; 34; 58; 50; 44;
      34; 97; 34; 58; 51; 125])
  = Ok (PyDict [(lit "a", PyInt 3); (lit "b", PyInt 2)]).
Proof. vm_compute. reflexivity. Qed.

(** the escapes of [ensure_ascii]: a quote, a backslash, a newline,
    U+00E9, U+1F600 as a surrogate pair, U+007F and U+0001 *)
Example escapes :
  encode_basestring_ascii [34; 92; 10; 233; 128512; 127; 1]
  = [34] ++ [92; 34] ++ [92; 92] ++ [92; 110] ++ lit "\u00e9"
    ++ lit "\ud83d\ude00" ++ lit "\u007f" ++ lit "\u0001" ++ [34].
Proof. vm_compute. reflexivity. Qed.

(** two adjacent surrogate code points are written as two escapes and
    read back as one character: such strings are not [scalar_str] *)
Example surrogates_merge :
  json_loads (float := pystr) (json_dumps (PyStr [55357; 56832]))
  = Ok (PyStr [128512]).
Proof. vm_compute. reflexivity. Qed.

(** the layout of [indent=4] *)
Example indented :
  json_dumps (PyList [PyDict [(lit "a", PyNone : pyval pystr)]; PyList []])
  = lit "["
    ++ [10] ++ lit "    {"
    ++ [10] ++ lit "        " ++ [34; 97; 34] ++ lit ": null"
    ++ [10] ++ lit "    },"
    ++ [10] ++ lit "    []"
    ++ [10] ++ lit "]".
Proof. vm_compute. reflexivity. Qed.

(** adding a course to an absent file, then looking it up *)
Example add_then_find :
  let w' :=
    mkWorld (Some (json_dumps (PyList [cs203])))
            [(lit "success", lit "Course 'CS203' added successfully!")] in
  add_course POST (course_form (lit "CS203") (lit "Systems") (lit "A"))
             (mkWorld None [])
  = (Ok (redirect (lit "/catalog")), w')
  /\ load_courses w' = (Ok (PyList [cs203]), w')
  /\ fst (course_details (lit "CS203") w')
     = Ok (render_template (lit "course_details.html")
                           [(lit "course", cs203)]).
Proof. vm_compute. repeat split. Qed.

(** a file that holds an object: the lookup iterates over its keys and
    fails on the first *)
Example details_on_object :
  fst (course_details (lit "CS203")
         (mkWorld (Some (json_dumps (cs203 : pyval pystr))) []))
  = Raise TypeError.
Proof. vm_compute. reflexivity. Qed.

(** * Instances of the theorems, and inputs on which a specified behaviour
      fails *)

Lemma validate_new_course_witness :
  exists course,
    form_dict course_fields (course_form (lit "CS203") [] (lit "A")) = Ok course
    /\ missing_fields course
       = filter (blank (course_form (lit "CS203") [] (lit "A"))) required_fields
    /\ (missing_fields course = [] <->
        forall f, In f required_fields ->
                  form_getitem (course_form (lit "CS203") [] (lit "A")) f
                  <> Ok []).
Proof.
  apply (validate_new_course (course_form (lit "CS203") [] (lit "A"))).
  intros f Hf. simpl in Hf.
  destruct Hf as [<-|[<-|[<-|[<-|[<-|[<-|[<-|[<-|[<-|[]]]]]]]]]];
    eexists; reflexivity.
Defined.

Lemma load_courses_spec_witness :
  load_courses (stored [cs203]) = (Ok (PyList [cs203]), stored [cs203]).
Proof.
  apply (proj2 (proj2 (load_courses_spec []))). vm_compute. reflexivity.
Defined.

(** An object and a list of numbers are valid JSON; [load_courses]
    returns them and raises nothing. *)
Lemma load_courses_other_shapes :
  load_courses (mkWorld (Some (lit "{}")) [])
  = (Ok (PyDict [] : pyval pystr), mkWorld (Some (lit "{}")) [])
  /\ load_courses (mkWorld (Some (lit "[1, 2]")) [])
     = (Ok (PyList [PyInt 1; PyInt 2] : pyval pystr),
        mkWorld (Some (lit "[1, 2]")) [])
  /\ is_course (PyDict [] : pyval pystr) = false
  /\ forallb is_course [PyInt 1; PyInt 2 : pyval pystr] = false.
Proof. vm_compute. repeat split. Qed.

Lemma save_then_load_witness :
  exists w',
    save_courses cs301 (stored [cs203]) = (Ok tt, w')
    /\ load_courses w' = (Ok (PyList ([cs203] ++ [cs301])), w')
    /\ flashes w' = flashes (stored [cs203]).
Proof.
  apply (save_then_load (stored [cs203]) [cs203] cs301);
    vm_compute; reflexivity.
Defined.

Lemma find_by_code_first_witness :
  exists pre y post,
    [cs203; cs301; cs301'] = pre ++ y :: post
    /\ code_of y = code_of cs301'
    /\ (forall z, In z pre -> code_of z <> code_of cs301')
    /\ next_course [cs203; cs301; cs301'] (code_of cs301') = Ok (Some y).
Proof.
  apply (find_by_code_first [cs203; cs301; cs301'] cs301').
  - vm_compute. reflexivity.
  - simpl. tauto.
Defined.

Lemma find_by_code_absent_witness :
  next_course [cs203; cs301] (lit "ZZ999") = Ok None.
Proof.
  apply (find_by_code_absent [cs203; cs301] (lit "ZZ999")).
  - vm_compute. reflexivity.
  - intros y [<-|[<-|[]]]; vm_compute; discriminate.
Defined.

Lemma add_course_invalid_witness :
  add_course POST (course_form (lit "CS203") (lit "Systems") [])
             (stored [cs301])
  = (Ok (redirect (lit "/add_course")),
     mkWorld (file (stored [cs301]))
       (flashes (stored [cs301])
        ++ [(lit "error",
             lit "Missing fields: "
             ++ join (lit ", ")
                  (filter (blank (course_form (lit "CS203") (lit "Systems") []))
                          required_fields))])).
Proof.
  apply (add_course_invalid (course_form (lit "CS203") (lit "Systems") [])
                            (stored [cs301]) (lit "instructor")).
  - intros f Hf. simpl in Hf.
    destruct Hf as [<-|[<-|[<-|[<-|[<-|[<-|[<-|[<-|[<-|[]]]]]]]]]];
      eexists; reflexivity.
  - simpl. tauto.
  - reflexivity.
Defined.

Lemma course_details_spec_witness :
  course_details (lit "ZZ999") (stored [cs203; cs301])
  = (Ok (redirect (lit "/catalog")),
     mkWorld (file (stored [cs203; cs301]))
       (flashes (stored [cs203; cs301])
        ++ [(lit "error",
             lit "No course found with code '" ++ lit "ZZ999" ++ lit "'.")]))
  /\ course_details (lit "CS301") (stored [cs203; cs301; cs301'])
     = (Ok (render_template (lit "course_details.html")
                            [(lit "course", cs301)]),
        stored [cs203; cs301; cs301']).
Proof.
  split.
  - apply (proj1 (course_details_spec (stored [cs203; cs301]) [cs203; cs301]
                    (lit "ZZ999") ltac:(vm_compute; reflexivity)
                    ltac:(vm_compute; reflexivity))).
    intros y [<-|[<-|[]]]; vm_compute; discriminate.
  - apply (proj2 (course_details_spec (stored [cs203; cs301; cs301'])
                    [cs203; cs301; cs301'] (lit "CS301")
                    ltac:(vm_compute; reflexivity)
                    ltac:(vm_compute; reflexivity)) [cs203] cs301 [cs301']).
    + reflexivity.
    + reflexivity.
    + intros z [<-|[]]. vm_compute. discriminate.
Defined.

Lemma add_course_missing_key_witness :
  exists k,
    In k course_fields
    /\ ~ In k (map fst [(lit "code", lit "CS203"); (lit "name", lit "Systems")])
    /\ add_course POST [(lit "code", lit "CS203"); (lit "name", lit "Systems")]
                  (stored [cs301])
       = (Raise (BadRequestKeyError k), stored [cs301]).
Proof.
  apply (add_course_missing_key
           [(lit "code", lit "CS203"); (lit "name", lit "Systems")]
           (stored [cs301]) (lit "grading")).
  - simpl. tauto.
  - simpl. intros [H|[H|[]]]; discriminate.
Defined.

Lemma add_course_whitespace_witness :
  exists course w',
    form_dict course_fields (course_form (lit "CS203") (lit " ") (lit "A"))
    = Ok course
    /\ missing_fields course = []
    /\ add_course POST (course_form (lit "CS203") (lit " ") (lit "A"))
                  (stored [cs301])
       = (Ok (redirect (lit "/catalog")), w')
    /\ load_courses w' = (Ok (PyList ([cs301] ++ [course_dict course])), w')
    /\ getitem (course_dict course : pyval pystr) (lit "name")
       = Ok (PyStr (lit " ")).
Proof.
  apply (add_course_whitespace (course_form (lit "CS203") (lit " ") (lit "A"))
                               (stored [cs301]) [cs301] (lit "name") (lit " ")).
  - intros g Hg. simpl in Hg.
    destruct Hg as [<-|[<-|[<-|[<-|[<-|[<-|[<-|[<-|[<-|[]]]]]]]]]];
      eexists; split; reflexivity.
  - simpl. tauto.
  - reflexivity.
  - reflexivity.
  - intros g Hg Hne. simpl in Hg.
    destruct Hg as [<-|[<-|[<-|[<-|[<-|[<-|[<-|[<-|[]]]]]]]]];
      reflexivity.
  - vm_compute. reflexivity.
  - vm_compute. reflexivity.
Defined.

(** A submission with a white-space code and an empty name: a required
    field holds white space only, and yet the submission is refused and
    nothing is stored. *)
Lemma add_course_whitespace_refused :
  whitespace_only (lit " ") = true
  /\ form_getitem (course_form (lit " ") [] (lit "A")) (lit "code")
     = Ok (lit " ")
  /\ In (lit "code") required_fields
  /\ add_course POST (course_form (lit " ") [] (lit "A"))
                (mkWorld None [])
     = (Ok (redirect (lit "/add_course")),
        mkWorld None [(lit "error", lit "Missing fields: name")]).
Proof.
  split; [reflexivity|]. split; [reflexivity|].
  split; [simpl; tauto|]. vm_compute. reflexivity.
Qed.

(** * Instances of the further properties *)

Ltac each_field :=
  let g := fresh "g" in
  let Hg := fresh "Hg" in
  intros g Hg; simpl in Hg;
  repeat (destruct Hg as [<- | Hg];
          [first [reflexivity | eexists; reflexivity] |]);
  contradiction.

Lemma add_course_valid_witness :
  let form := course_form (lit "CS203") (lit "Systems") (lit "A") in
  add_course POST form (stored [cs301])
  = (Ok (redirect (lit "/catalog")),
     mkWorld (Some (json_dumps
                      (PyList ([cs301] ++ [course_dict (course_of_form form)]))))
             (flashes (stored [cs301])
              ++ [added_flash (form_value form (lit "code"))]))
  /\ forall g, In g course_fields ->
       getitem (course_dict (course_of_form form) : pyval pystr) g
       = Ok (PyStr (form_value form g)).
Proof.
  apply (add_course_valid (course_form (lit "CS203") (lit "Systems") (lit "A"))
                          (stored [cs301]) [cs301]).
  - each_field.
  - each_field.
  - vm_compute. reflexivity.
Defined.

Lemma add_course_form_ext_witness :
  let form := course_form (lit "CS203") (lit "Systems") (lit "A") in
  add_course (float := pystr) POST
             (form ++ [(lit "code", lit "CS999"); (lit "room", lit "7")])
             (stored [cs301])
  = add_course POST form (stored [cs301]).
Proof.
  apply (add_course_form_ext POST
           (course_form (lit "CS203") (lit "Systems") (lit "A")
            ++ [(lit "code", lit "CS999"); (lit "room", lit "7")])
           (course_form (lit "CS203") (lit "Systems") (lit "A"))
           (stored [cs301])).
  each_field.
Defined.

Lemma add_course_bad_store_witness :
  let form := course_form (lit "CS203") (lit "Systems") (lit "A") in
  let w := mkWorld (Some (lit "{}")) [] in
  add_course (float := pystr) POST form w
  = (Raise (match fst (load_courses (float := pystr) w) with
            | Raise e => e
            | Ok _ => AttributeError
            end), w)
  /\ forall e, fst (load_courses (float := pystr) w) = Raise e
               -> e = JSONDecodeError.
Proof.
  apply (add_course_bad_store
           (course_form (lit "CS203") (lit "Systems") (lit "A"))
           (mkWorld (Some (lit "{}")) [])).
  - each_field.
  - each_field.
  - intros cs. vm_compute. discriminate.
Defined.

Lemma add_course_keeps_catalog_witness :
  exists cs',
    fst (load_courses
           (snd (add_course POST
                   (course_form (lit "CS301") (lit "Networks") (lit "B"))
                   (stored [cs203]))))
    = Ok (PyList cs')
    /\ storable (PyList cs') = true
    /\ forallb complete_course cs' = true
    /\ (cs' = [cs203] \/ exists c, cs' = [cs203] ++ [c]).
Proof.
  apply (add_course_keeps_catalog POST
           (course_form (lit "CS301") (lit "Networks") (lit "B"))
           (stored [cs203]) [cs203]).
  - vm_compute. reflexivity.
  - vm_compute. reflexivity.
  - vm_compute. reflexivity.
  - each_field.
Defined.

Lemma add_then_details_witness :
  let form := course_form (lit "CS301") (lit "Networks, evening") (lit "C") in
  fst (course_details (form_value form (lit "code"))
                      (snd (add_course POST form (stored [cs203; cs301]))))
  = Ok (render_template (lit "course_details.html")
          [(lit "course",
            match find (fun y => str_eqb (code_of y)
                                         (form_value form (lit "code")))
                       [cs203; cs301] with
            | Some y => y
            | None => course_dict (course_of_form form)
            end)]).
Proof.
  apply (add_then_details
           (course_form (lit "CS301") (lit "Networks, evening") (lit "C"))
           (stored [cs203; cs301]) [cs203; cs301]).
  - each_field.
  - each_field.
  - each_field.
  - vm_compute. reflexivity.
  - vm_compute. reflexivity.
  - vm_compute. reflexivity.
Defined.

Lemma add_keeps_details_witness :
  let form := course_form (lit "CS301") (lit "Networks") (lit "B") in
  fst (course_details (lit "CS203") (snd (add_course POST form (stored [cs203]))))
  = fst (course_details (lit "CS203") (stored [cs203])).
Proof.
  apply (add_keeps_details
           (course_form (lit "CS301") (lit "Networks") (lit "B"))
           (stored [cs203]) [cs203] (lit "CS203")).
  - each_field.
  - each_field.
  - each_field.
  - vm_compute. reflexivity.
  - vm_compute. reflexivity.
  - vm_compute. reflexivity.
  - left. vm_compute. discriminate.
Defined.

Lemma add_then_catalog_witness :
  let form := course_form (lit "CS301") (lit "Networks") (lit "B") in
  fst (course_catalog (snd (add_course POST form (stored [cs203]))))
  = Ok (render_template (lit "course_catalog.html")
          [(lit "courses",
            PyList ([cs203] ++ [course_dict (course_of_form form)]))]).
Proof.
  apply (add_then_catalog
           (course_form (lit "CS301") (lit "Networks") (lit "B"))
           (stored [cs203]) [cs203]).
  - each_field.
  - each_field.
  - each_field.
  - vm_compute. reflexivity.
  - vm_compute. reflexivity.
Defined.

Lemma save_courses_ascii_witness :
  exists text,
    file (snd (save_courses (PyStr [233; 128512] : pyval pystr)
                            (stored [cs203])))
    = Some text
    /\ forallb plain_ascii text = true.
Proof.
  apply (save_courses_ascii (stored [cs203]) [cs203] (PyStr [233; 128512]));
    vm_compute; reflexivity.
Defined.

Lemma lookup_stops_at_match_witness :
  next_course [PyDict [(lit "code", PyInt 203)]; cs203; PyNone] (lit "CS203")
  = Ok (Some cs203).
Proof.
  apply (lookup_stops_at_match [PyDict [(lit "code", PyInt 203)]] [PyNone]
                               cs203 (lit "CS203")).
  - intros z [<-|[]]. eexists. split; reflexivity.
  - reflexivity.
Defined.

Lemma lookup_raises_witness :
  next_course [cs301; PyDict [(lit "name", PyStr (lit "Systems"))]; cs203]
              (lit "CS203")
  = Raise (KeyError (lit "code"))
  /\ KeyError (lit "code")
     = match PyDict [(lit "name", PyStr (lit "Systems"))] : pyval pystr with
       | PyDict _ => KeyError (lit "code")
       | _ => TypeError
       end.
Proof.
  apply (lookup_raises [cs301] [cs203]
                       (PyDict [(lit "name", PyStr (lit "Systems"))])
                       (lit "CS203") (KeyError (lit "code"))).
  - intros z [<-|[]]. eexists. split; reflexivity.
  - reflexivity.
Defined.

Lemma lookup_none_witness :
  next_course [cs203; cs301] (lit "ZZ999") = Ok None.
Proof.
  apply (proj2 (lookup_none [cs203; cs301] (lit "ZZ999"))).
  intros z [<-|[<-|[]]]; eexists; split; reflexivity.
Defined.

Lemma course_details_sound_witness :
  exists c o items,
    lit "course_details.html" = lit "course_details.html"
    /\ [(lit "course", cs301)] = [(lit "course", c)]
    /\ fst (load_courses (stored [cs203; cs301])) = Ok o
    /\ iter o = Ok items /\ In c items
    /\ getitem c (lit "code") = Ok (PyStr (lit "CS301")).
Proof.
  apply (course_details_sound (lit "CS301") (stored [cs203; cs301])
                              (lit "course_details.html")
                              [(lit "course", cs301)]).
  vm_compute. reflexivity.
Defined.

Lemma save_twice_witness :
  fst (load_courses
         (snd (save_courses cs301
                 (snd (save_courses cs203 (mkWorld None []))))))
  = Ok (PyList ([] ++ [cs203; cs301])).
Proof.
  apply (save_twice (mkWorld None []) [] cs203 cs301);
    vm_compute; reflexivity.
Defined.
